(** * CelsiumCrosshair: the overlay and its settings panel (Crosshair.py)

    A shallow embedding of [Crosshair.py].  The two classes of the program,
    [CrosshairOverlay] and [CrosshairSettingsUI], become two modules; an
    object is a record of its attributes, a method is a function from the
    object to the object.  What the program asks of Qt and of user32 is kept
    as data: the calls a widget receives are logged in the order they are
    made, a painter collects the primitives drawn through it, and the window
    longs of user32 are a finite map. *)

From Stdlib Require Import ZArith List Bool Lia.
From stdpp Require Import gmap strings list pretty.

Local Open Scope Z_scope.

(** ** Values of the toolkit *)

(** [QColor]: the colour dialog returns an invalid colour when it is
    cancelled; [QColor(r, g, b, a)] with components in range is valid. *)
Inductive QColor : Type :=
| QColor_invalid
| QColor_rgba (r g b a : Z).

Definition isValid (c : QColor) : bool :=
  match c with
  | QColor_invalid => false
  | QColor_rgba _ _ _ _ => true
  end.

(** A decoded image: at least one pixel wide and high. *)
Record Bitmap : Type := mkBitmap {
  bm_width : positive;
  bm_height : positive;
  bm_pixels : list QColor
}.

(** [QPixmap]: either the null pixmap (zero width, zero height, no content)
    or a decoded image. *)
Inductive QPixmap : Type :=
| QPixmap_null
| QPixmap_of (b : Bitmap).


Definition pixmap_width (pm : QPixmap) : Z :=
  match pm with
  | QPixmap_null => 0
  | QPixmap_of b => Z.pos (bm_width b)
  end.

Definition pixmap_height (pm : QPixmap) : Z :=
  match pm with
  | QPixmap_null => 0
  | QPixmap_of b => Z.pos (bm_height b)
  end.

(** Truth value of the attribute [crosshair_image] in [if self.crosshair_image:].
    The attribute holds [None] or a [QPixmap] object; the PyQt5 wrapper of
    [QPixmap] defines neither [__bool__] nor [__len__], so every pixmap object
    is true, the null pixmap included. *)
Definition truthy_image (o : option QPixmap) : bool :=
  match o with
  | None => false
  | Some _ => true
  end.

(** Truth value of a Python [str]: true unless empty. *)
Definition truthy_str (s : string) : bool :=
  match s with
  | EmptyString => false
  | String _ _ => true
  end.

(** [QPoint] and [QRect].  Qt stores a rectangle by its corners; the right and
    bottom corners are [left + width - 1] and [top + height - 1], and its
    integer divisions are those of C++ (towards zero). *)
Record QPoint : Type := mkQPoint { px : Z; py : Z }.

Record QRect : Type := mkQRect { rx1 : Z; ry1 : Z; rx2 : Z; ry2 : Z }.

Definition QRect_xywh (x y w h : Z) : QRect :=
  {| rx1 := x; ry1 := y; rx2 := x + w - 1; ry2 := y + h - 1 |}.

Definition rect_width (r : QRect) : Z := rx2 r - rx1 r + 1.
Definition rect_height (r : QRect) : Z := ry2 r - ry1 r + 1.

Definition center (r : QRect) : QPoint :=
  {| px := Z.quot (rx1 r + rx2 r) 2; py := Z.quot (ry1 r + ry2 r) 2 |}.

Definition moveCenter (p : QPoint) (r : QRect) : QRect :=
  let w := rx2 r - rx1 r in
  let h := ry2 r - ry1 r in
  let x1 := px p - Z.quot w 2 in
  let y1 := py p - Z.quot h 2 in
  {| rx1 := x1; ry1 := y1; rx2 := x1 + w; ry2 := y1 + h |}.

Definition pixmap_rect (pm : QPixmap) : QRect :=
  QRect_xywh 0 0 (pixmap_width pm) (pixmap_height pm).

(** ** The painter *)

Record QPen : Type := mkQPen { pen_color : QColor; pen_width : Z }.

(** What reaches the paint device: each primitive with the state it was
    drawn in. *)
Inductive PaintOp : Type :=
| op_drawPixmap (target : QRect) (pm : QPixmap)
| op_drawLine (x1 y1 x2 y2 : Z) (pen : QPen).

Record QPainter : Type := mkQPainter {
  painter_pen : QPen;
  painter_ops : list PaintOp
}.

(** A painter opened on a widget: nothing drawn yet.  The pen it starts with
    comes from the widget's palette; [paintEvent] replaces both its colour
    and its width before it draws a line. *)
Definition QPainter_begin : QPainter :=
  {| painter_pen := {| pen_color := QColor_rgba 0 0 0 255; pen_width := 1 |};
     painter_ops := [] |}.

(** Painter code threads the painter through every call: a state monad. *)
Definition Paint (A : Type) : Type := QPainter -> A * QPainter.

Definition paint_ret {A} (a : A) : Paint A := fun p => (a, p).

Definition paint_bind {A B} (m : Paint A) (f : A -> Paint B) : Paint B :=
  fun p => let (a, p') := m p in f a p'.

Declare Scope paint_scope.
Delimit Scope paint_scope with paint.
Notation "x <~ m ;; k" := (paint_bind m (fun x => k))
  (at level 100, m at next level, k at level 200, right associativity) : paint_scope.
Notation "m ;; k" := (paint_bind m (fun _ => k))
  (at level 100, k at level 200, right associativity) : paint_scope.

(** [painter.setPen(color)]: a solid pen of width 1 in that colour. *)
Definition setPen_color (c : QColor) : Paint unit :=
  fun p => (tt, {| painter_pen := {| pen_color := c; pen_width := 1 |};
                   painter_ops := painter_ops p |}).

(** [painter.pen()] hands out a copy of the current pen. *)
Definition pen : Paint QPen := fun p => (painter_pen p, p).

(** [pen.setWidth(w)] on that copy; the width is stored as given. *)
Definition setWidth (w : Z) (pn : QPen) : QPen :=
  {| pen_color := pen_color pn; pen_width := w |}.

Definition setPen (pn : QPen) : Paint unit :=
  fun p => (tt, {| painter_pen := pn; painter_ops := painter_ops p |}).

Definition drawLine (x1 y1 x2 y2 : Z) : Paint unit :=
  fun p => (tt, {| painter_pen := painter_pen p;
                   painter_ops := painter_ops p ++ [op_drawLine x1 y1 x2 y2 (painter_pen p)] |}).

Definition drawPixmap (target : QRect) (pm : QPixmap) : Paint unit :=
  fun p => (tt, {| painter_pen := painter_pen p;
                   painter_ops := painter_ops p ++ [op_drawPixmap target pm] |}).




(** ** user32: the window longs *)

(** Constants for making the window click-through. *)
Definition WS_EX_LAYERED : Z := 0x80000.
Definition WS_EX_TRANSPARENT : Z := 0x20.
Definition GWL_EXSTYLE : Z := -20.

(** A window long is a 32-bit signed [LONG]; ctypes passes a Python [int]
    as a C [int], keeping its low 32 bits. *)
Definition c_int (v : Z) : Z := (v + 2 ^ 31) mod 2 ^ 32 - 2 ^ 31.

Definition is_long (v : Z) : Prop := - 2 ^ 31 <= v < 2 ^ 31.

(** The longs of every live window, by handle and index.  On a handle that
    is not a window [GetWindowLongW] returns 0 and [SetWindowLongW] changes
    nothing and returns 0; on a window [SetWindowLongW] returns the long it
    replaced. *)
Abbreviation User32 := (gmap (Z * Z) Z).

Definition GetWindowLongW (os : User32) (hwnd nIndex : Z) : Z :=
  default 0 (os !! (hwnd, nIndex)).

Definition SetWindowLongW (os : User32) (hwnd nIndex dwNewLong : Z) : Z * User32 :=
  match os !! (hwnd, nIndex) with
  | Some old => (old, <[(hwnd, nIndex) := c_int dwNewLong]> os)
  | None => (0, os)
  end.

Definition make_window_click_through (window_id : Z) (os : User32) : User32 :=
  let hwnd := window_id in
  let extended_style := GetWindowLongW os hwnd GWL_EXSTYLE in
  let (_, os') :=
    SetWindowLongW os hwnd GWL_EXSTYLE
      (Z.lor (Z.lor extended_style WS_EX_LAYERED) WS_EX_TRANSPARENT) in
  os'.

(** ** class CrosshairOverlay(QWidget) *)

(** The slots of [QWidget] the overlay calls on itself, logged in call
    order: [update()] schedules a repaint, [show()] and [hide()] show and
    hide the window at the level of the window system. *)
Inductive WidgetCall : Type :=
| call_update
| call_show
| call_hide.

Definition is_show_hide (c : WidgetCall) : bool :=
  match c with
  | call_update => false
  | call_show | call_hide => true
  end.

Module CrosshairOverlay.

Record t : Type := mk {
  geometry : QRect;
  crosshair_visible : bool;
  default_size : Z;
  default_thickness : Z;
  default_color : QColor;
  size : Z;
  thickness : Z;
  color : QColor;
  crosshair_image : option QPixmap;
  timer_interval : option Z;
  calls : list WidgetCall
}.

(** Attribute assignment [self.a = v], one function per attribute. *)
Definition assign_geometry (v : QRect) (self : t) : t :=
  mk v (crosshair_visible self) (default_size self) (default_thickness self)
     (default_color self) (size self) (thickness self) (color self)
     (crosshair_image self) (timer_interval self) (calls self).

Definition assign_crosshair_visible (v : bool) (self : t) : t :=
  mk (geometry self) v (default_size self) (default_thickness self)
     (default_color self) (size self) (thickness self) (color self)
     (crosshair_image self) (timer_interval self) (calls self).

Definition assign_default_size (v : Z) (self : t) : t :=
  mk (geometry self) (crosshair_visible self) v (default_thickness self)
     (default_color self) (size self) (thickness self) (color self)
     (crosshair_image self) (timer_interval self) (calls self).

Definition assign_default_thickness (v : Z) (self : t) : t :=
  mk (geometry self) (crosshair_visible self) (default_size self) v
     (default_color self) (size self) (thickness self) (color self)
     (crosshair_image self) (timer_interval self) (calls self).

Definition assign_default_color (v : QColor) (self : t) : t :=
  mk (geometry self) (crosshair_visible self) (default_size self)
     (default_thickness self) v (size self) (thickness self) (color self)
     (crosshair_image self) (timer_interval self) (calls self).

Definition assign_size (v : Z) (self : t) : t :=
  mk (geometry self) (crosshair_visible self) (default_size self)
     (default_thickness self) (default_color self) v (thickness self)
     (color self) (crosshair_image self) (timer_interval self) (calls self).

Definition assign_thickness (v : Z) (self : t) : t :=
  mk (geometry self) (crosshair_visible self) (default_size self)
     (default_thickness self) (default_color self) (size self) v
     (color self) (crosshair_image self) (timer_interval self) (calls self).

Definition assign_color (v : QColor) (self : t) : t :=
  mk (geometry self) (crosshair_visible self) (default_size self)
     (default_thickness self) (default_color self) (size self)
     (thickness self) v (crosshair_image self) (timer_interval self)
     (calls self).

Definition assign_crosshair_image (v : option QPixmap) (self : t) : t :=
  mk (geometry self) (crosshair_visible self) (default_size self)
     (default_thickness self) (default_color self) (size self)
     (thickness self) (color self) v (timer_interval self) (calls self).

Definition timer_start (ms : Z) (self : t) : t :=
  mk (geometry self) (crosshair_visible self) (default_size self)
     (default_thickness self) (default_color self) (size self)
     (thickness self) (color self) (crosshair_image self) (Some ms)
     (calls self).

(** A call of one of the widget's own slots. *)
Definition call (c : WidgetCall) (self : t) : t :=
  mk (geometry self) (crosshair_visible self) (default_size self)
     (default_thickness self) (default_color self) (size self)
     (thickness self) (color self) (crosshair_image self)
     (timer_interval self) (calls self ++ [c]).

Definition update : t -> t := call call_update.
Definition show : t -> t := call call_show.
Definition hide : t -> t := call call_hide.

(** [self.width()], [self.height()], [self.rect()]. *)
Definition width (self : t) : Z := rect_width (geometry self).
Definition height (self : t) : Z := rect_height (geometry self).
Definition rect (self : t) : QRect := QRect_xywh 0 0 (width self) (height self).

(** Whether the window system shows the window: the last [show()] or
    [hide()] decides, and a widget nobody has shown is hidden. *)
Definition shown_after (cs : list WidgetCall) : bool :=
  fold_left (fun b c => match c with
                        | call_show => true
                        | call_hide => false
                        | call_update => b
                        end) cs false.

Definition shown (self : t) : bool := shown_after (calls self).

Definition reset_to_default (self : t) : t :=
  let self := assign_size (default_size self) self in
  let self := assign_thickness (default_thickness self) self in
  let self := assign_color (default_color self) self in
  let self := assign_crosshair_image None self in
  update self.

Definition update_overlay (self : t) : t :=
  if crosshair_visible self then show self else hide self.

Definition toggle_crosshair (visible : bool) (self : t) : t :=
  assign_crosshair_visible visible self.

Definition set_size (size : Z) (self : t) : t :=
  update (assign_size size self).

Definition set_thickness (thickness : Z) (self : t) : t :=
  update (assign_thickness thickness self).

Definition set_color (color : QColor) (self : t) : t :=
  update (assign_color color self).

Section Files.

(** The image decoder behind [QPixmap(path)]: [None] when the file is
    missing or is no image Qt can read. *)
Variable decode : string -> option Bitmap.

(** [QPixmap(image_path)]: a failed load leaves the null pixmap and
    raises nothing. *)
Definition QPixmap_load (path : string) : QPixmap :=
  match decode path with
  | Some b => QPixmap_of b
  | None => QPixmap_null
  end.

Definition load_custom_crosshair (image_path : string) (self : t) : t :=
  let self := assign_crosshair_image (Some (QPixmap_load image_path)) self in
  update self.

End Files.

Definition paintEvent (self : t) : list PaintOp :=
  if negb (crosshair_visible self) then []
  else
    let painter := QPainter_begin in
    let body : Paint unit :=
      (if truthy_image (crosshair_image self) then
         match crosshair_image self with
         | Some img =>
             (* Draw custom crosshair image *)
             let image_rect := pixmap_rect img in
             let image_rect := moveCenter (center (rect self)) image_rect in
             drawPixmap image_rect img
         | None => paint_ret tt
         end
       else
         (* Draw default crosshair *)
         setPen_color (color self) ;;
         let mid_x := width self / 2 in
         let mid_y := height self / 2 in
         pn <~ pen ;;
         let pn := setWidth (thickness self) pn in
         setPen pn ;;
         (* Draw horizontal line *)
         drawLine (mid_x - size self) mid_y (mid_x + size self) mid_y ;;
         (* Draw vertical line *)
         drawLine mid_x (mid_y - size self) mid_x (mid_y + size self))%paint in
    painter_ops (snd (body painter)).

(** The object [__init__] receives: a widget no slot of which has been
    called, no attribute bound yet.  The values standing for the unbound
    attributes are never read: [__init__] assigns every one of them before
    it is read. *)
Definition unbound : t :=
  mk (QRect_xywh 0 0 0 0) false 0 0 QColor_invalid 0 0 QColor_invalid None None [].

(** [__init__]: [desktop_width] and [desktop_height] are what
    [QApplication.desktop()] reports, [winId] is the handle of the native
    window, [os] the window longs of user32 when it is asked for. *)
Definition __init__ (desktop_width desktop_height winId : Z) (os : User32)
    (self : t) : t * User32 :=
  let self := assign_geometry (QRect_xywh 0 0 desktop_width desktop_height) self in
  let self := assign_crosshair_visible false self in
  let self := assign_default_size 15 self in
  let self := assign_default_thickness 2 self in
  let self := assign_default_color (QColor_rgba 255 0 0 255) self in
  let self := reset_to_default self in
  let self := timer_start 16 self in  (* 60 FPS *)
  let self := show self in
  (self, make_window_click_through winId os).

(** [CrosshairOverlay()]. *)
Definition new (desktop_width desktop_height winId : Z) (os : User32)
  : t * User32 :=
  __init__ desktop_width desktop_height winId os unbound.

(** The methods of the class, each with its arguments, and what a call of
    one does to the object. *)
Inductive Method : Type :=
| m_init (desktop_width desktop_height winId : Z) (os : User32)
| m_reset_to_default
| m_update_overlay
| m_toggle_crosshair (visible : bool)
| m_set_size (size : Z)
| m_set_thickness (thickness : Z)
| m_set_color (color : QColor)
| m_load_custom_crosshair (image_path : string)
| m_paintEvent.

Section Calls.

Variable decode : string -> option Bitmap.

Definition invoke (m : Method) (self : t) : t :=
  match m with
  | m_init dw dh winId os => fst (__init__ dw dh winId os self)
  | m_reset_to_default => reset_to_default self
  | m_update_overlay => update_overlay self
  | m_toggle_crosshair visible => toggle_crosshair visible self
  | m_set_size n => set_size n self
  | m_set_thickness n => set_thickness n self
  | m_set_color c => set_color c self
  | m_load_custom_crosshair image_path =>
      load_custom_crosshair decode image_path self
  | m_paintEvent => self
  end.

Definition invoke_all (ms : list Method) (self : t) : t :=
  fold_left (fun s m => invoke m s) ms self.


End Calls.




(** The [show()] and [hide()] calls among the calls made so far. *)
Definition show_hide_calls (self : t) : list WidgetCall :=
  List.filter is_show_hide (calls self).

End CrosshairOverlay.

(** ** Widgets of the settings panel *)

(** [QSlider]: range and value.  Qt keeps the value within the range, and
    [setValue] emits [valueChanged] with the new value only when the value
    changes. *)
Record QSlider : Type := mkQSlider { minimum : Z; maximum : Z; value : Z }.

Definition QSlider_new : QSlider := {| minimum := 0; maximum := 99; value := 0 |}.

Definition qBound (lo v hi : Z) : Z := Z.max lo (Z.min hi v).

Definition setRange (lo hi : Z) (sl : QSlider) : QSlider :=
  let hi := Z.max lo hi in
  {| minimum := lo; maximum := hi; value := qBound lo (value sl) hi |}.

Definition setMinimum (lo : Z) (sl : QSlider) : QSlider :=
  setRange lo (Z.max (maximum sl) lo) sl.

Definition setMaximum (hi : Z) (sl : QSlider) : QSlider :=
  setRange (Z.min (minimum sl) hi) hi sl.

Definition setValue (v : Z) (sl : QSlider) : QSlider * option Z :=
  let v := qBound (minimum sl) v (maximum sl) in
  if v =? value sl then (sl, None)
  else ({| minimum := minimum sl; maximum := maximum sl; value := v |}, Some v).

(** A checkable [QPushButton]: its text and whether it is checked. *)
Record QPushButton : Type := mkQPushButton { text : string; isChecked : bool }.

(** [f"{n}"] of a Python [int]. *)
Definition str (n : Z) : string := pretty n.

(** ** class CrosshairSettingsUI(QWidget) *)

Module CrosshairSettingsUI.

(** The panel holds a reference to the one overlay of the program; every
    access to the overlay, the timer's included, goes to that object, so it
    is kept here, in the attribute that refers to it. *)
Record t : Type := mk {
  crosshair_overlay : CrosshairOverlay.t;
  size_label : string;
  size_slider : QSlider;
  thickness_label : string;
  thickness_slider : QSlider;
  fov_label : string;
  fov_slider : QSlider;
  crosshair_button : QPushButton
}.

Definition assign_crosshair_overlay (v : CrosshairOverlay.t) (self : t) : t :=
  mk v (size_label self) (size_slider self) (thickness_label self)
     (thickness_slider self) (fov_label self) (fov_slider self)
     (crosshair_button self).

Definition assign_size_label (v : string) (self : t) : t :=
  mk (crosshair_overlay self) v (size_slider self) (thickness_label self)
     (thickness_slider self) (fov_label self) (fov_slider self)
     (crosshair_button self).

Definition assign_size_slider (v : QSlider) (self : t) : t :=
  mk (crosshair_overlay self) (size_label self) v (thickness_label self)
     (thickness_slider self) (fov_label self) (fov_slider self)
     (crosshair_button self).

Definition assign_thickness_label (v : string) (self : t) : t :=
  mk (crosshair_overlay self) (size_label self) (size_slider self) v
     (thickness_slider self) (fov_label self) (fov_slider self)
     (crosshair_button self).

Definition assign_thickness_slider (v : QSlider) (self : t) : t :=
  mk (crosshair_overlay self) (size_label self) (size_slider self)
     (thickness_label self) v (fov_label self) (fov_slider self)
     (crosshair_button self).

Definition assign_fov_label (v : string) (self : t) : t :=
  mk (crosshair_overlay self) (size_label self) (size_slider self)
     (thickness_label self) (thickness_slider self) v (fov_slider self)
     (crosshair_button self).

Definition assign_fov_slider (v : QSlider) (self : t) : t :=
  mk (crosshair_overlay self) (size_label self) (size_slider self)
     (thickness_label self) (thickness_slider self) (fov_label self) v
     (crosshair_button self).

Definition assign_crosshair_button (v : QPushButton) (self : t) : t :=
  mk (crosshair_overlay self) (size_label self) (size_slider self)
     (thickness_label self) (thickness_slider self) (fov_label self)
     (fov_slider self) v.

(** [label.setText(s)] and [button.setText(s)]. *)
Definition button_setText (s : string) (b : QPushButton) : QPushButton :=
  {| text := s; isChecked := isChecked b |}.

(** The sliders are given their values before [valueChanged] is connected:
    no handler runs during [init_ui]. *)
Definition init_ui (self : t) : t :=
  let overlay := crosshair_overlay self in
  (* Crosshair size slider *)
  let self := assign_size_label
                ("Crosshair Size: " +:+ str (CrosshairOverlay.size overlay)) self in
  let sl := setMaximum 100 (setMinimum 5 QSlider_new) in
  let self := assign_size_slider (fst (setValue (CrosshairOverlay.size overlay) sl)) self in
  (* Crosshair thickness slider *)
  let self := assign_thickness_label
                ("Crosshair Thickness: " +:+ str (CrosshairOverlay.thickness overlay)) self in
  let sl := setMaximum 10 (setMinimum 1 QSlider_new) in
  let self := assign_thickness_slider
                (fst (setValue (CrosshairOverlay.thickness overlay) sl)) self in
  (* FOV slider *)
  let self := assign_fov_label ("Field of View (FOV): " +:+ str 90) self in
  let sl := setMaximum 120 (setMinimum 60 QSlider_new) in
  let self := assign_fov_slider (fst (setValue 90 sl)) self in
  (* Enable/disable crosshair button *)
  assign_crosshair_button {| text := "Enable Crosshair"; isChecked := false |} self.

Definition __init__ (crosshair_overlay : CrosshairOverlay.t) : t :=
  let self := mk crosshair_overlay "" QSlider_new "" QSlider_new "" QSlider_new
                 {| text := ""; isChecked := false |} in
  init_ui self.

Definition update_size (value : Z) (self : t) : t :=
  let self := assign_size_label ("Crosshair Size: " +:+ str value) self in
  assign_crosshair_overlay
    (CrosshairOverlay.set_size value (crosshair_overlay self)) self.

Definition update_thickness (value : Z) (self : t) : t :=
  let self := assign_thickness_label ("Crosshair Thickness: " +:+ str value) self in
  assign_crosshair_overlay
    (CrosshairOverlay.set_thickness value (crosshair_overlay self)) self.

Definition update_fov (value : Z) (self : t) : t :=
  assign_fov_label ("Field of View (FOV): " +:+ str value) self.
  (* Implement logic to handle FOV adjustment for the game here *)

(** [color] is what [QColorDialog.getColor()] returned. *)
Definition choose_color (color : QColor) (self : t) : t :=
  if isValid color then
    assign_crosshair_overlay
      (CrosshairOverlay.set_color color (crosshair_overlay self)) self
  else self.

Definition remove_custom_crosshair (self : t) : t :=
  assign_crosshair_overlay
    (CrosshairOverlay.reset_to_default (crosshair_overlay self)) self.

Definition toggle_crosshair (self : t) : t :=
  if isChecked (crosshair_button self) then
    let self := assign_crosshair_button
                  (button_setText "Disable Crosshair" (crosshair_button self)) self in
    assign_crosshair_overlay
      (CrosshairOverlay.toggle_crosshair true (crosshair_overlay self)) self
  else
    let self := assign_crosshair_button
                  (button_setText "Enable Crosshair" (crosshair_button self)) self in
    assign_crosshair_overlay
      (CrosshairOverlay.toggle_crosshair false (crosshair_overlay self)) self.

(** What the event loop delivers after construction.  A slider event is the
    user moving the handle towards [position]; a button event carries what
    the dialog it opens returns. *)
Inductive Event : Type :=
| size_slider_moved (position : Z)
| thickness_slider_moved (position : Z)
| fov_slider_moved (position : Z)
| color_button_clicked (picked : QColor)
| upload_button_clicked (file_path : string)
| remove_custom_button_clicked
| crosshair_button_clicked
| timer_timeout.

Definition is_crosshair_button (e : Event) : bool :=
  match e with
  | crosshair_button_clicked => true
  | _ => false
  end.

Definition is_timer (e : Event) : bool :=
  match e with
  | timer_timeout => true
  | _ => false
  end.

Section Files.

Variable decode : string -> option Bitmap.

(** [file_path] is the path [QFileDialog.getOpenFileName] returned, empty
    when the dialog was cancelled. *)
Definition upload_custom_crosshair (file_path : string) (self : t) : t :=
  if truthy_str file_path then
    assign_crosshair_overlay
      (CrosshairOverlay.load_custom_crosshair decode file_path
         (crosshair_overlay self)) self
  else self.

(** The connections made in [init_ui] and in the overlay's [__init__]. *)
Definition dispatch (e : Event) (self : t) : t :=
  match e with
  | size_slider_moved v =>
      let (sl, emitted) := setValue v (size_slider self) in
      let self := assign_size_slider sl self in
      match emitted with
      | Some v' => update_size v' self
      | None => self
      end
  | thickness_slider_moved v =>
      let (sl, emitted) := setValue v (thickness_slider self) in
      let self := assign_thickness_slider sl self in
      match emitted with
      | Some v' => update_thickness v' self
      | None => self
      end
  | fov_slider_moved v =>
      let (sl, emitted) := setValue v (fov_slider self) in
      let self := assign_fov_slider sl self in
      match emitted with
      | Some v' => update_fov v' self
      | None => self
      end
  | color_button_clicked picked => choose_color picked self
  | upload_button_clicked file_path => upload_custom_crosshair file_path self
  | remove_custom_button_clicked => remove_custom_crosshair self
  | crosshair_button_clicked =>
      (* a click on a checkable button flips it, then [clicked] is emitted *)
      let b := crosshair_button self in
      let self := assign_crosshair_button
                    {| text := text b; isChecked := negb (isChecked b) |} self in
      toggle_crosshair self
  | timer_timeout =>
      assign_crosshair_overlay
        (CrosshairOverlay.update_overlay (crosshair_overlay self)) self
  end.

Definition run (es : list Event) (self : t) : t :=
  fold_left (fun s e => dispatch e s) es self.

End Files.

End CrosshairSettingsUI.

(** [main]: the overlay, then the panel that configures it. *)
Definition main (desktop_width desktop_height winId : Z) (os : User32)
  : CrosshairSettingsUI.t * User32 :=
  let (overlay, os) := CrosshairOverlay.new desktop_width desktop_height winId os in
  let settings_window := CrosshairSettingsUI.__init__ overlay in
  (settings_window, os).

(** ** Invariants and sample values *)

(** What [__init__] binds once and no method assigns again. *)
Definition init_defaults (self : CrosshairOverlay.t) : Prop :=
  CrosshairOverlay.default_size self = 15 /\
  CrosshairOverlay.default_thickness self = 2 /\
  CrosshairOverlay.default_color self = QColor_rgba 255 0 0 255.

(** A 3 by 3 image and a freshly constructed overlay on a 1920 by 1080
    desktop, for the examples. *)
Definition sample_bitmap : Bitmap :=
  mkBitmap 3 3 (repeat (QColor_rgba 0 255 0 255) 9).

Definition sample_overlay : CrosshairOverlay.t :=
  fst (CrosshairOverlay.new 1920 1080 7 ∅).

(** ** What the panel keeps *)

(** The ranges [init_ui] gives the three sliders, and the overlay's size and
    thickness within the first two of them. *)
Definition slider_within (lo hi : Z) (sl : QSlider) : Prop :=
  minimum sl = lo /\ maximum sl = hi /\ lo <= value sl <= hi.

Definition in_ranges (p : CrosshairSettingsUI.t) : Prop :=
  let o := CrosshairSettingsUI.crosshair_overlay p in
  5 <= CrosshairOverlay.size o <= 100 /\
  1 <= CrosshairOverlay.thickness o <= 10 /\
  slider_within 5 100 (CrosshairSettingsUI.size_slider p) /\
  slider_within 1 10 (CrosshairSettingsUI.thickness_slider p) /\
  slider_within 60 120 (CrosshairSettingsUI.fov_slider p) /\
  CrosshairSettingsUI.fov_label p
  = "Field of View (FOV): " +:+ str (value (CrosshairSettingsUI.fov_slider p)) /\
  init_defaults o.

(** The size and thickness controls show what the overlay holds. *)
Definition in_sync (p : CrosshairSettingsUI.t) : Prop :=
  let o := CrosshairSettingsUI.crosshair_overlay p in
  CrosshairSettingsUI.size_label p
  = "Crosshair Size: " +:+ str (CrosshairOverlay.size o) /\
  value (CrosshairSettingsUI.size_slider p) = CrosshairOverlay.size o /\
  CrosshairSettingsUI.thickness_label p
  = "Crosshair Thickness: " +:+ str (CrosshairOverlay.thickness o) /\
  value (CrosshairSettingsUI.thickness_slider p) = CrosshairOverlay.thickness o.

(** The enable/disable button shows what the overlay's flag holds. *)
Definition button_mirrors (p : CrosshairSettingsUI.t) : Prop :=
  let b := CrosshairSettingsUI.crosshair_button p in
  CrosshairOverlay.crosshair_visible (CrosshairSettingsUI.crosshair_overlay p)
  = isChecked b /\
  text b = if isChecked b then "Disable Crosshair" else "Enable Crosshair".

Definition is_remove_button (e : CrosshairSettingsUI.Event) : bool :=
  match e with
  | CrosshairSettingsUI.remove_custom_button_clicked => true
  | _ => false
  end.

(** How many of the events are timer ticks, and how many are clicks on the
    enable/disable button. *)
Definition ticks (es : list CrosshairSettingsUI.Event) : nat :=
  length (List.filter CrosshairSettingsUI.is_timer es).

Definition clicks (es : list CrosshairSettingsUI.Event) : nat :=
  length (List.filter CrosshairSettingsUI.is_crosshair_button es).

(** A line whose end points are pixels of a [w] by [h] surface, left to right
    or top to bottom. *)
Definition line_inside (w h : Z) (o : PaintOp) : bool :=
  match o with
  | op_drawLine x1 y1 x2 y2 _ =>
      (0 <=? x1) && (x1 <=? x2) && (x2 <? w) && (0 <=? y1) && (y1 <=? y2) && (y2 <? h)
  | op_drawPixmap _ _ => false
  end.

(** The two lines of the default crosshair around [(mid_x, mid_y)]. *)
Definition crosshair_lines (mid_x mid_y size thickness : Z) (color : QColor)
  : list PaintOp :=
  let pn := {| pen_color := color; pen_width := thickness |} in
  [op_drawLine (mid_x - size) mid_y (mid_x + size) mid_y pn;
   op_drawLine mid_x (mid_y - size) mid_x (mid_y + size) pn].

(** * Properties *)

(** ** Window longs and the two style flags *)

Section StyleBits.

Lemma is_long_shiftr (v : Z) : is_long v <-> -1 <= Z.shiftr v 31 <= 0.
Proof.
  unfold is_long. rewrite Z.shiftr_div_pow2 by lia.
  change (2 ^ 31) with 2147483648.
  split; intros H.
  - Z.div_mod_to_equations. lia.
  - Z.div_mod_to_equations. lia.
Qed.

Lemma c_int_long (v : Z) : is_long (c_int v).
Proof.
  unfold is_long, c_int.
  pose proof (Z.mod_pos_bound (v + 2 ^ 31) (2 ^ 32) ltac:(lia)) as H.
  change (2 ^ 32) with (2 * 2 ^ 31) in *. lia.
Qed.

Lemma c_int_id (v : Z) : is_long v -> c_int v = v.
Proof.
  unfold is_long, c_int. intros H.
  rewrite Z.mod_small; [lia |].
  change (2 ^ 32) with (2 * 2 ^ 31). lia.
Qed.

(** The conversion keeps the low 32 bits. *)
Lemma c_int_testbit (v i : Z) :
  0 <= i < 32 -> Z.testbit (c_int v) i = Z.testbit v i.
Proof.
  intros Hi.
  assert (Hmod : c_int v mod 2 ^ 32 = v mod 2 ^ 32).
  { unfold c_int.
    rewrite Zminus_mod, Zmod_mod, <- Zminus_mod.
    f_equal. lia. }
  rewrite <- (Z.mod_pow2_bits_low (c_int v) 32 i) by lia.
  rewrite Hmod. apply Z.mod_pow2_bits_low. lia.
Qed.

(** Or-ing in a flag below bit 31 keeps a long a long. *)
Lemma lor_flag_long (v flag : Z) :
  is_long v -> Z.shiftr flag 31 = 0 -> is_long (Z.lor v flag).
Proof.
  rewrite !is_long_shiftr. intros Hv Hf.
  now rewrite Z.shiftr_lor, Hf, Z.lor_0_r.
Qed.

Lemma click_through_style_long (s : Z) :
  is_long s -> is_long (Z.lor (Z.lor s WS_EX_LAYERED) WS_EX_TRANSPARENT).
Proof.
  intros H. apply lor_flag_long; [apply lor_flag_long |]; auto.
Qed.

(** Bit by bit: the two flags are bits 19 and 5. *)
Lemma click_through_style_testbit (s i : Z) :
  0 <= i ->
  Z.testbit (Z.lor (Z.lor s WS_EX_LAYERED) WS_EX_TRANSPARENT) i
  = Z.testbit s i || (i =? 19) || (i =? 5).
Proof.
  intros Hi. rewrite !Z.lor_spec.
  change WS_EX_LAYERED with (2 ^ 19). change WS_EX_TRANSPARENT with (2 ^ 5).
  rewrite !Z.pow2_bits_eqb by lia.
  now rewrite (Z.eqb_sym 19 i), (Z.eqb_sym 5 i).
Qed.

(** A style that has both flags is a fixed point of the update. *)
Lemma click_through_style_fixed (s : Z) :
  Z.testbit s 19 = true -> Z.testbit s 5 = true ->
  Z.lor (Z.lor s WS_EX_LAYERED) WS_EX_TRANSPARENT = s.
Proof.
  intros H19 H5. apply Z.bits_inj'. intros i Hi.
  rewrite click_through_style_testbit by assumption.
  destruct (Z.eqb_spec i 19) as [-> | _]; [now rewrite H19 |].
  destruct (Z.eqb_spec i 5) as [-> | _]; [now rewrite H5 |].
  now rewrite !orb_false_r.
Qed.

Lemma make_window_click_through_lookup (os : User32) (hwnd s : Z) :
  os !! (hwnd, GWL_EXSTYLE) = Some s ->
  make_window_click_through hwnd os
  = <[(hwnd, GWL_EXSTYLE) :=
        c_int (Z.lor (Z.lor s WS_EX_LAYERED) WS_EX_TRANSPARENT)]> os.
Proof.
  intros H. unfold make_window_click_through, SetWindowLongW, GetWindowLongW.
  now rewrite H.
Qed.

Lemma make_window_click_through_no_window (os : User32) (hwnd : Z) :
  os !! (hwnd, GWL_EXSTYLE) = None -> make_window_click_through hwnd os = os.
Proof.
  intros H. unfold make_window_click_through, SetWindowLongW.
  now rewrite H.
Qed.

End StyleBits.

(** C8.  On a window whose extended style is the long [s], the click-through
    call reads [s] and writes back exactly [s | WS_EX_LAYERED |
    WS_EX_TRANSPARENT], that is [s | 0x80000 | 0x20]: bits 19 and 5 are set,
    every other bit of the style is as it was, and no other window long
    changes.  The call returns the new state of user32 and nothing else. *)
Theorem make_window_click_through_writes_style (os : User32) (hwnd s : Z) :
  os !! (hwnd, GWL_EXSTYLE) = Some s ->
  is_long s ->
  let s' := Z.lor (Z.lor s 0x80000) 0x20 in
  let os' := make_window_click_through hwnd os in
  GetWindowLongW os hwnd GWL_EXSTYLE = s /\
  os' !! (hwnd, GWL_EXSTYLE) = Some s' /\
  (forall k : Z * Z, k <> (hwnd, GWL_EXSTYLE) -> os' !! k = os !! k) /\
  Z.testbit s' 19 = true /\
  Z.testbit s' 5 = true /\
  (forall i : Z, 0 <= i -> i <> 19 -> i <> 5 -> Z.testbit s' i = Z.testbit s i).
Proof.
  intros Hs Hlong s' os'.
  assert (Hos' : os' = <[(hwnd, GWL_EXSTYLE) := s']> os).
  { unfold os'. rewrite (make_window_click_through_lookup os hwnd s Hs).
    f_equal. apply c_int_id. now apply click_through_style_long. }
  split; [unfold GetWindowLongW; now rewrite Hs |].
  split; [rewrite Hos'; apply lookup_insert_eq |].
  split; [intros k Hk; rewrite Hos'; now apply lookup_insert_ne |].
  unfold s'.
  change 0x80000 with WS_EX_LAYERED. change 0x20 with WS_EX_TRANSPARENT.
  split; [rewrite click_through_style_testbit by lia; cbn; now rewrite orb_true_r |].
  split; [rewrite click_through_style_testbit by lia; cbn; now rewrite orb_true_r |].
  intros i Hi H19 H5. rewrite click_through_style_testbit by assumption.
  destruct (Z.eqb_spec i 19); [contradiction |].
  destruct (Z.eqb_spec i 5); [contradiction |].
  now rewrite !orb_false_r.
Qed.

Lemma make_window_click_through_writes_style_witness :
  let os : User32 := {[ (7, GWL_EXSTYLE) := 0x100 ]} in
  make_window_click_through 7 os !! (7, GWL_EXSTYLE) = Some 0x80120.
Proof.
  intros os.
  assert (Hs : os !! (7, GWL_EXSTYLE) = Some 0x100) by apply lookup_singleton_eq.
  assert (Hl : is_long 0x100) by (unfold is_long; lia).
  exact (proj1 (proj2 (make_window_click_through_writes_style os 7 0x100 Hs Hl))).
Defined.

(** C10.  The style update of the click-through call, [s] to
    [s | WS_EX_LAYERED | WS_EX_TRANSPARENT], is idempotent: calling it twice
    on a window leaves user32 as calling it once does; and it is monotone:
    every bit set in the style before is set in the style after. *)
Theorem make_window_click_through_idempotent_monotone (os : User32) (hwnd : Z) :
  make_window_click_through hwnd (make_window_click_through hwnd os)
  = make_window_click_through hwnd os
  /\
  (forall s : Z,
      os !! (hwnd, GWL_EXSTYLE) = Some s -> is_long s ->
      exists s' : Z,
        make_window_click_through hwnd os !! (hwnd, GWL_EXSTYLE) = Some s' /\
        Z.land s s' = s /\
        (forall i : Z, 0 <= i -> Z.testbit s i = true -> Z.testbit s' i = true)).
Proof.
  split.
  - destruct (os !! (hwnd, GWL_EXSTYLE)) as [s |] eqn:Hs.
    + rewrite (make_window_click_through_lookup os hwnd s Hs).
      set (y := c_int (Z.lor (Z.lor s WS_EX_LAYERED) WS_EX_TRANSPARENT)).
      rewrite (make_window_click_through_lookup _ hwnd y)
        by apply lookup_insert_eq.
      rewrite insert_insert_eq. f_equal.
      assert (Hy : Z.lor (Z.lor y WS_EX_LAYERED) WS_EX_TRANSPARENT = y).
      { apply click_through_style_fixed; unfold y;
          rewrite c_int_testbit by lia;
          rewrite click_through_style_testbit by lia; cbn;
          now rewrite orb_true_r. }
      rewrite Hy. apply c_int_id. apply c_int_long.
    + now rewrite !(make_window_click_through_no_window os hwnd Hs).
  - intros s Hs Hlong.
    exists (Z.lor (Z.lor s WS_EX_LAYERED) WS_EX_TRANSPARENT).
    split.
    + rewrite (make_window_click_through_lookup os hwnd s Hs).
      rewrite lookup_insert_eq. f_equal. apply c_int_id.
      now apply click_through_style_long.
    + split.
      * apply Z.bits_inj'. intros i Hi.
        rewrite Z.land_spec, click_through_style_testbit by assumption.
        destruct (Z.testbit s i); reflexivity.
      * intros i Hi Hb. rewrite click_through_style_testbit by assumption.
        now rewrite Hb.
Qed.

Lemma make_window_click_through_idempotent_monotone_witness :
  let os : User32 := {[ (7, GWL_EXSTYLE) := 0x80008 ]} in
  make_window_click_through 7 (make_window_click_through 7 os)
  = make_window_click_through 7 os
  /\ exists s' : Z,
       make_window_click_through 7 os !! (7, GWL_EXSTYLE) = Some s' /\
       Z.land 0x80008 s' = 0x80008.
Proof.
  intros os.
  destruct (make_window_click_through_idempotent_monotone os 7) as [Hidem Hmono].
  split; [exact Hidem |].
  destruct (Hmono 0x80008) as [s' [Hs' [Hland _]]].
  - apply lookup_singleton_eq.
  - unfold is_long; lia.
  - exists s'. split; assumption.
Defined.

(** ** Rectangles *)




(** ** The overlay: rendering *)

Lemma paintEvent_hidden (self : CrosshairOverlay.t) :
  CrosshairOverlay.crosshair_visible self = false ->
  CrosshairOverlay.paintEvent self = [].
Proof.
  intros H. unfold CrosshairOverlay.paintEvent. now rewrite H.
Qed.

Lemma paintEvent_image (self : CrosshairOverlay.t) (img : QPixmap) :
  CrosshairOverlay.crosshair_visible self = true ->
  CrosshairOverlay.crosshair_image self = Some img ->
  CrosshairOverlay.paintEvent self
  = [op_drawPixmap
       (moveCenter (center (CrosshairOverlay.rect self)) (pixmap_rect img)) img].
Proof.
  intros Hv Hi. unfold CrosshairOverlay.paintEvent. now rewrite Hv, Hi.
Qed.




(** ** The overlay: configuration *)

Section OverlayCalls.

Variable decode : string -> option Bitmap.

Lemma init_establishes_defaults (dw dh winId : Z) (os : User32)
    (self : CrosshairOverlay.t) :
  init_defaults (fst (CrosshairOverlay.__init__ dw dh winId os self)).
Proof. repeat split. Qed.

Lemma invoke_keeps_defaults (m : CrosshairOverlay.Method)
    (self : CrosshairOverlay.t) :
  init_defaults self -> init_defaults (CrosshairOverlay.invoke decode m self).
Proof.
  intros H. destruct m; try exact H.
  - apply init_establishes_defaults.
  - cbn. unfold CrosshairOverlay.update_overlay.
    destruct (CrosshairOverlay.crosshair_visible self); exact H.
Qed.

Lemma invoke_all_keeps_defaults (ms : list CrosshairOverlay.Method)
    (self : CrosshairOverlay.t) :
  init_defaults self -> init_defaults (CrosshairOverlay.invoke_all decode ms self).
Proof.
  revert self. induction ms as [| m ms IH]; intros self H; [exact H |].
  cbn. apply IH. now apply invoke_keeps_defaults.
Qed.

(** Every object the program can hold: constructed, then called any number
    of times. *)
Lemma reachable_defaults (dw dh winId : Z) (os : User32)
    (ms : list CrosshairOverlay.Method) :
  init_defaults
    (CrosshairOverlay.invoke_all decode ms (fst (CrosshairOverlay.new dw dh winId os))).
Proof.
  apply invoke_all_keeps_defaults.
  exact (init_establishes_defaults dw dh winId os CrosshairOverlay.unbound).
Qed.



End OverlayCalls.

(** C2.  Whatever the size, thickness, colour and image of the overlay,
    [reset_to_default] leaves size 15, thickness 2, colour opaque red
    RGBA(255, 0, 0, 255) and no image, and calls [update()] once, which asks
    for a redraw.  The method copies the three [default_*] attributes; they
    hold these values on every overlay the program can reach, that is after
    the constructor and any calls of any methods. *)
Theorem reset_to_default_restores :
  (forall self : CrosshairOverlay.t,
      init_defaults self ->
      let self' := CrosshairOverlay.reset_to_default self in
      CrosshairOverlay.size self' = 15 /\
      CrosshairOverlay.thickness self' = 2 /\
      CrosshairOverlay.color self' = QColor_rgba 255 0 0 255 /\
      CrosshairOverlay.crosshair_image self' = None /\
      CrosshairOverlay.calls self' = CrosshairOverlay.calls self ++ [call_update]) /\
  (forall (decode : string -> option Bitmap) (dw dh winId : Z) (os : User32)
          (ms : list CrosshairOverlay.Method),
      init_defaults
        (CrosshairOverlay.invoke_all decode ms
           (fst (CrosshairOverlay.new dw dh winId os)))).
Proof.
  split.
  - intros self (Hs & Ht & Hc) self'. unfold self'. cbn.
    rewrite Hs, Ht, Hc. repeat split.
  - exact reachable_defaults.
Qed.

Lemma reset_to_default_restores_witness :
  let decode : string -> option Bitmap := fun _ => Some sample_bitmap in
  let self :=
    CrosshairOverlay.invoke_all decode
      [CrosshairOverlay.m_set_size 40; CrosshairOverlay.m_set_thickness 5;
       CrosshairOverlay.m_set_color (QColor_rgba 0 0 255 255);
       CrosshairOverlay.m_load_custom_crosshair "crosshair.png"]
      sample_overlay in
  CrosshairOverlay.size self = 40 /\
  CrosshairOverlay.crosshair_image self = Some (QPixmap_of sample_bitmap) /\
  CrosshairOverlay.size (CrosshairOverlay.reset_to_default self) = 15 /\
  CrosshairOverlay.crosshair_image (CrosshairOverlay.reset_to_default self) = None.
Proof.
  intros decode self.
  destruct reset_to_default_restores as [Hreset Hreach].
  pose proof (Hreset self (Hreach decode 1920 1080 7 ∅ _)) as R.
  split; [reflexivity |]. split; [reflexivity |].
  split; [exact (proj1 R) | exact (proj1 (proj2 (proj2 (proj2 R))))].
Defined.

(** C4.  Each of [set_size], [set_thickness] and [set_color] stores its
    argument, whatever it is (no clamping to the sliders' ranges 5..100 and
    1..10), in its own attribute and calls [update()]; every other attribute
    is as it was: the image, [crosshair_visible] and the two other
    configuration attributes in particular.  No setter clears the image. *)
Theorem setters_store_and_frame (self : CrosshairOverlay.t) (n : Z) (c : QColor) :
  let same_rest (self' : CrosshairOverlay.t) :=
    CrosshairOverlay.crosshair_image self' = CrosshairOverlay.crosshair_image self /\
    CrosshairOverlay.crosshair_visible self' = CrosshairOverlay.crosshair_visible self /\
    CrosshairOverlay.geometry self' = CrosshairOverlay.geometry self /\
    CrosshairOverlay.default_size self' = CrosshairOverlay.default_size self /\
    CrosshairOverlay.default_thickness self' = CrosshairOverlay.default_thickness self /\
    CrosshairOverlay.default_color self' = CrosshairOverlay.default_color self /\
    CrosshairOverlay.timer_interval self' = CrosshairOverlay.timer_interval self /\
    CrosshairOverlay.calls self' = CrosshairOverlay.calls self ++ [call_update] in
  (CrosshairOverlay.size (CrosshairOverlay.set_size n self) = n /\
   CrosshairOverlay.thickness (CrosshairOverlay.set_size n self)
   = CrosshairOverlay.thickness self /\
   CrosshairOverlay.color (CrosshairOverlay.set_size n self)
   = CrosshairOverlay.color self /\
   same_rest (CrosshairOverlay.set_size n self)) /\
  (CrosshairOverlay.thickness (CrosshairOverlay.set_thickness n self) = n /\
   CrosshairOverlay.size (CrosshairOverlay.set_thickness n self)
   = CrosshairOverlay.size self /\
   CrosshairOverlay.color (CrosshairOverlay.set_thickness n self)
   = CrosshairOverlay.color self /\
   same_rest (CrosshairOverlay.set_thickness n self)) /\
  (CrosshairOverlay.color (CrosshairOverlay.set_color c self) = c /\
   CrosshairOverlay.size (CrosshairOverlay.set_color c self)
   = CrosshairOverlay.size self /\
   CrosshairOverlay.thickness (CrosshairOverlay.set_color c self)
   = CrosshairOverlay.thickness self /\
   same_rest (CrosshairOverlay.set_color c self)).
Proof.
  cbv zeta. repeat split.
Qed.

(** ** The overlay: a load that fails *)




(** ** Shown and hidden *)

Lemma shown_after_snoc (cs : list WidgetCall) (c : WidgetCall) :
  CrosshairOverlay.shown_after (cs ++ [c])
  = match c with
    | call_show => true
    | call_hide => false
    | call_update => CrosshairOverlay.shown_after cs
    end.
Proof.
  unfold CrosshairOverlay.shown_after. rewrite fold_left_app. cbn.
  destruct c; reflexivity.
Qed.

(** Only the [show()] and [hide()] calls decide. *)
Lemma shown_after_show_hide (cs : list WidgetCall) :
  CrosshairOverlay.shown_after cs
  = CrosshairOverlay.shown_after (List.filter is_show_hide cs).
Proof.
  unfold CrosshairOverlay.shown_after.
  set (f := fun (b : bool) (c : WidgetCall) => _). generalize false.
  induction cs as [| c cs IH]; intros b; [reflexivity |].
  destruct c; cbn; apply IH.
Qed.

Lemma update_overlay_calls (self : CrosshairOverlay.t) :
  CrosshairOverlay.calls (CrosshairOverlay.update_overlay self)
  = CrosshairOverlay.calls self
      ++ [if CrosshairOverlay.crosshair_visible self then call_show else call_hide].
Proof.
  unfold CrosshairOverlay.update_overlay.
  destruct (CrosshairOverlay.crosshair_visible self); reflexivity.
Qed.

Lemma update_overlay_shown (self : CrosshairOverlay.t) :
  CrosshairOverlay.shown (CrosshairOverlay.update_overlay self)
  = CrosshairOverlay.crosshair_visible self.
Proof.
  unfold CrosshairOverlay.shown. rewrite update_overlay_calls, shown_after_snoc.
  destruct (CrosshairOverlay.crosshair_visible self); reflexivity.
Qed.

Lemma update_overlay_visible (self : CrosshairOverlay.t) :
  CrosshairOverlay.crosshair_visible (CrosshairOverlay.update_overlay self)
  = CrosshairOverlay.crosshair_visible self.
Proof.
  unfold CrosshairOverlay.update_overlay.
  destruct (CrosshairOverlay.crosshair_visible self) eqn:E; exact E.
Qed.




(** ** The panel's events *)

Section PanelEvents.

Variable decode : string -> option Bitmap.

Ltac event_cases :=
  cbn;
  repeat match goal with
    | |- context [setValue ?v ?sl] =>
        unfold setValue; destruct (_ =? value sl)
    | |- context [CrosshairSettingsUI.choose_color ?c _] =>
        unfold CrosshairSettingsUI.choose_color; destruct (isValid c)
    | |- context [CrosshairSettingsUI.upload_custom_crosshair _ ?p _] =>
        unfold CrosshairSettingsUI.upload_custom_crosshair; destruct (truthy_str p)
    | |- context [CrosshairSettingsUI.toggle_crosshair _] =>
        unfold CrosshairSettingsUI.toggle_crosshair; cbn
    | |- context [if negb ?b then _ else _] => destruct b; cbn
    end;
  cbn.

(** Only the enable/disable button writes [crosshair_visible]. *)
Lemma dispatch_keeps_visible (e : CrosshairSettingsUI.Event)
    (self : CrosshairSettingsUI.t) :
  CrosshairSettingsUI.is_crosshair_button e = false ->
  CrosshairOverlay.crosshair_visible
    (CrosshairSettingsUI.crosshair_overlay (CrosshairSettingsUI.dispatch decode e self))
  = CrosshairOverlay.crosshair_visible (CrosshairSettingsUI.crosshair_overlay self).
Proof.
  intros He. destruct e; try discriminate He; event_cases; try reflexivity.
  apply update_overlay_visible.
Qed.

(** Only the timer calls [show()] or [hide()]. *)
Lemma dispatch_keeps_show_hide (e : CrosshairSettingsUI.Event)
    (self : CrosshairSettingsUI.t) :
  CrosshairSettingsUI.is_timer e = false ->
  CrosshairOverlay.show_hide_calls
    (CrosshairSettingsUI.crosshair_overlay (CrosshairSettingsUI.dispatch decode e self))
  = CrosshairOverlay.show_hide_calls (CrosshairSettingsUI.crosshair_overlay self).
Proof.
  intros He. destruct e; try discriminate He; event_cases;
    try reflexivity;
    unfold CrosshairOverlay.show_hide_calls; cbn;
    rewrite List.filter_app; cbn; apply app_nil_r.
Qed.

Lemma dispatch_keeps_shown (e : CrosshairSettingsUI.Event)
    (self : CrosshairSettingsUI.t) :
  CrosshairSettingsUI.is_timer e = false ->
  CrosshairOverlay.shown
    (CrosshairSettingsUI.crosshair_overlay (CrosshairSettingsUI.dispatch decode e self))
  = CrosshairOverlay.shown (CrosshairSettingsUI.crosshair_overlay self).
Proof.
  intros He. unfold CrosshairOverlay.shown.
  rewrite shown_after_show_hide, (shown_after_show_hide (CrosshairOverlay.calls _)).
  f_equal. now apply dispatch_keeps_show_hide.
Qed.

(** While nobody clicks the enable/disable button the flag stays false, and
    the surface is shown exactly as long as the timer has not fired. *)
Lemma run_without_button (es : list CrosshairSettingsUI.Event)
    (self : CrosshairSettingsUI.t) :
  forallb (fun e => negb (CrosshairSettingsUI.is_crosshair_button e)) es = true ->
  CrosshairOverlay.crosshair_visible (CrosshairSettingsUI.crosshair_overlay self) = false ->
  let self' := CrosshairSettingsUI.run decode es self in
  CrosshairOverlay.crosshair_visible (CrosshairSettingsUI.crosshair_overlay self') = false /\
  CrosshairOverlay.shown (CrosshairSettingsUI.crosshair_overlay self')
  = if existsb CrosshairSettingsUI.is_timer es then false
    else CrosshairOverlay.shown (CrosshairSettingsUI.crosshair_overlay self).
Proof.
  revert self. induction es as [| e es IH]; intros self Hes Hv; [split; auto |].
  cbn in Hes. apply andb_prop in Hes as [He Hes].
  apply negb_true_iff in He.
  assert (Hv' : CrosshairOverlay.crosshair_visible
                  (CrosshairSettingsUI.crosshair_overlay
                     (CrosshairSettingsUI.dispatch decode e self)) = false)
    by (now rewrite dispatch_keeps_visible).
  destruct (IH _ Hes Hv') as [IHv IHs].
  cbn zeta.
  change (CrosshairSettingsUI.run decode (e :: es) self)
    with (CrosshairSettingsUI.run decode es (CrosshairSettingsUI.dispatch decode e self)).
  split; [exact IHv |].
  rewrite IHs. cbn [existsb].
  destruct (existsb CrosshairSettingsUI.is_timer es); [now rewrite orb_true_r |].
  rewrite orb_false_r.
  destruct (CrosshairSettingsUI.is_timer e) eqn:Ht.
  - destruct e; try discriminate Ht. cbn.
    rewrite update_overlay_shown. exact Hv.
  - now apply dispatch_keeps_shown.
Qed.

End PanelEvents.


(** ** Visibility *)

(** C5, as the code has it.  The constructor leaves [crosshair_visible]
    false and calls [show()] itself: when it returns the surface is shown by
    the window system, and renders nothing.  As long as the enable/disable
    button is not clicked the flag stays false, nothing is rendered, and the
    surface is shown until the first timer tick and hidden from then on.  No
    event but a click on that button writes the flag; the first click sets it
    true; every timer tick reads it and calls [show()] when it is true and
    [hide()] when it is false. *)
Theorem construction_visibility (decode : string -> option Bitmap)
    (dw dh winId : Z) (os : User32) :
  let panel := fst (main dw dh winId os) in
  let overlay := CrosshairSettingsUI.crosshair_overlay in
  CrosshairOverlay.crosshair_visible (overlay panel) = false /\
  CrosshairOverlay.shown (overlay panel) = true /\
  CrosshairOverlay.paintEvent (overlay panel) = [] /\
  (forall es : list CrosshairSettingsUI.Event,
      forallb (fun e => negb (CrosshairSettingsUI.is_crosshair_button e)) es = true ->
      let panel' := CrosshairSettingsUI.run decode es panel in
      CrosshairOverlay.crosshair_visible (overlay panel') = false /\
      CrosshairOverlay.paintEvent (overlay panel') = [] /\
      CrosshairOverlay.shown (overlay panel')
      = negb (existsb CrosshairSettingsUI.is_timer es)) /\
  (forall (e : CrosshairSettingsUI.Event) (self : CrosshairSettingsUI.t),
      CrosshairSettingsUI.is_crosshair_button e = false ->
      CrosshairOverlay.crosshair_visible (overlay (CrosshairSettingsUI.dispatch decode e self))
      = CrosshairOverlay.crosshair_visible (overlay self)) /\
  CrosshairOverlay.crosshair_visible
    (overlay (CrosshairSettingsUI.dispatch decode
                CrosshairSettingsUI.crosshair_button_clicked panel)) = true /\
  (forall self : CrosshairSettingsUI.t,
      let self' := CrosshairSettingsUI.dispatch decode CrosshairSettingsUI.timer_timeout self in
      CrosshairOverlay.calls (overlay self')
      = CrosshairOverlay.calls (overlay self)
          ++ [if CrosshairOverlay.crosshair_visible (overlay self)
              then call_show else call_hide] /\
      CrosshairOverlay.shown (overlay self')
      = CrosshairOverlay.crosshair_visible (overlay self)).
Proof.
  intros panel overlay.
  assert (Hv : CrosshairOverlay.crosshair_visible (overlay panel) = false) by reflexivity.
  assert (Hs : CrosshairOverlay.shown (overlay panel) = true) by reflexivity.
  split; [exact Hv |]. split; [exact Hs |]. split; [reflexivity |].
  split.
  { intros es Hes panel'.
    destruct (run_without_button decode es panel Hes Hv) as [Hv' Hs'].
    split; [exact Hv' |]. split; [now apply paintEvent_hidden |].
    unfold panel', overlay. rewrite Hs'. fold overlay. rewrite Hs.
    now destruct (existsb CrosshairSettingsUI.is_timer es). }
  split; [intros e self He; now apply dispatch_keeps_visible |].
  split; [reflexivity |].
  intros self self'. split.
  - apply update_overlay_calls.
  - apply update_overlay_shown.
Qed.

Lemma construction_visibility_witness :
  let decode : string -> option Bitmap := fun _ => None in
  let panel := fst (main 1920 1080 7 ∅) in
  let es := [CrosshairSettingsUI.size_slider_moved 40;
             CrosshairSettingsUI.timer_timeout;
             CrosshairSettingsUI.color_button_clicked (QColor_rgba 0 0 255 255)] in
  CrosshairOverlay.shown (CrosshairSettingsUI.crosshair_overlay panel) = true /\
  CrosshairOverlay.shown
    (CrosshairSettingsUI.crosshair_overlay (CrosshairSettingsUI.run decode es panel))
  = false.
Proof.
  intros decode panel es.
  pose proof (construction_visibility decode 1920 1080 7 ∅) as H.
  cbv zeta in H.
  destruct H as (_ & Hshown & _ & Hrun & _).
  split; [exact Hshown |].
  exact (proj2 (proj2 (Hrun es eq_refl))).
Defined.

(** C5 as the specification states it: hidden from construction until the button
    enables it.  It fails before the first timer tick: the constructor has
    called [show()]. *)
Lemma constructed_overlay_is_shown :
  ~ (forall (decode : string -> option Bitmap) (dw dh winId : Z) (os : User32)
            (es : list CrosshairSettingsUI.Event),
        forallb (fun e => negb (CrosshairSettingsUI.is_crosshair_button e)) es = true ->
        CrosshairOverlay.shown
          (CrosshairSettingsUI.crosshair_overlay
             (CrosshairSettingsUI.run decode es (fst (main dw dh winId os))))
        = false).
Proof.
  intros H.
  specialize (H (fun _ => None) 1920 1080 7 ∅ [] eq_refl).
  discriminate H.
Qed.




(** ** The panel's dialogs and the field-of-view slider *)

(** C7.  A colour dialog that returns an invalid colour and a file dialog
    that returns the empty path leave the panel, and with it the overlay,
    exactly as they were.  A valid colour is passed as it is to [set_color],
    a non-empty path as it is to [load_custom_crosshair], and nothing else of
    the panel changes. *)
Theorem dialogs_cancel_or_forward (decode : string -> option Bitmap)
    (self : CrosshairSettingsUI.t) :
  (forall color : QColor,
      isValid color = false -> CrosshairSettingsUI.choose_color color self = self) /\
  CrosshairSettingsUI.upload_custom_crosshair decode "" self = self /\
  (forall color : QColor,
      isValid color = true ->
      CrosshairSettingsUI.choose_color color self
      = CrosshairSettingsUI.assign_crosshair_overlay
          (CrosshairOverlay.set_color color (CrosshairSettingsUI.crosshair_overlay self))
          self) /\
  (forall file_path : string,
      file_path <> "" ->
      CrosshairSettingsUI.upload_custom_crosshair decode file_path self
      = CrosshairSettingsUI.assign_crosshair_overlay
          (CrosshairOverlay.load_custom_crosshair decode file_path
             (CrosshairSettingsUI.crosshair_overlay self))
          self).
Proof.
  split; [| split; [| split]].
  - intros color H. unfold CrosshairSettingsUI.choose_color. now rewrite H.
  - reflexivity.
  - intros color H. unfold CrosshairSettingsUI.choose_color. now rewrite H.
  - intros file_path H. unfold CrosshairSettingsUI.upload_custom_crosshair.
    destruct file_path; [contradiction | reflexivity].
Qed.

Lemma dialogs_cancel_or_forward_witness :
  let decode : string -> option Bitmap := fun _ => Some sample_bitmap in
  let panel := fst (main 1920 1080 7 ∅) in
  CrosshairSettingsUI.choose_color QColor_invalid panel = panel /\
  CrosshairOverlay.color
    (CrosshairSettingsUI.crosshair_overlay
       (CrosshairSettingsUI.choose_color (QColor_rgba 0 0 255 255) panel))
  = QColor_rgba 0 0 255 255 /\
  CrosshairOverlay.crosshair_image
    (CrosshairSettingsUI.crosshair_overlay
       (CrosshairSettingsUI.upload_custom_crosshair decode "crosshair.png" panel))
  = Some (QPixmap_of sample_bitmap).
Proof.
  intros decode panel.
  destruct (dialogs_cancel_or_forward decode panel) as (Hc & _ & Hv & Hp).
  split; [exact (Hc QColor_invalid eq_refl) |].
  split.
  - rewrite (Hv (QColor_rgba 0 0 255 255) eq_refl). reflexivity.
  - rewrite (Hp "crosshair.png" ltac:(discriminate)). reflexivity.
Defined.

(** C9.  For every slider value, [update_fov] writes the text of the
    field-of-view label and nothing else: the overlay (size, thickness,
    colour, image, [crosshair_visible] and the rest of it) and every other
    attribute of the panel are as they were.  Moving the slider itself, which
    stores the new position in the slider before the handler runs, leaves the
    overlay and every attribute but the slider and its label as they were. *)
Theorem update_fov_only_label (decode : string -> option Bitmap)
    (v : Z) (self : CrosshairSettingsUI.t) :
  let self' := CrosshairSettingsUI.update_fov v self in
  let moved := CrosshairSettingsUI.dispatch decode (CrosshairSettingsUI.fov_slider_moved v) self in
  (CrosshairSettingsUI.fov_label self' = "Field of View (FOV): " +:+ str v /\
   CrosshairSettingsUI.crosshair_overlay self' = CrosshairSettingsUI.crosshair_overlay self /\
   CrosshairSettingsUI.size_label self' = CrosshairSettingsUI.size_label self /\
   CrosshairSettingsUI.size_slider self' = CrosshairSettingsUI.size_slider self /\
   CrosshairSettingsUI.thickness_label self' = CrosshairSettingsUI.thickness_label self /\
   CrosshairSettingsUI.thickness_slider self' = CrosshairSettingsUI.thickness_slider self /\
   CrosshairSettingsUI.fov_slider self' = CrosshairSettingsUI.fov_slider self /\
   CrosshairSettingsUI.crosshair_button self' = CrosshairSettingsUI.crosshair_button self) /\
  (CrosshairSettingsUI.crosshair_overlay moved = CrosshairSettingsUI.crosshair_overlay self /\
   CrosshairSettingsUI.size_label moved = CrosshairSettingsUI.size_label self /\
   CrosshairSettingsUI.size_slider moved = CrosshairSettingsUI.size_slider self /\
   CrosshairSettingsUI.thickness_label moved = CrosshairSettingsUI.thickness_label self /\
   CrosshairSettingsUI.thickness_slider moved = CrosshairSettingsUI.thickness_slider self /\
   CrosshairSettingsUI.crosshair_button moved = CrosshairSettingsUI.crosshair_button self).
Proof.
  intros self' moved. split; [repeat split |].
  unfold moved. cbn. unfold setValue.
  destruct (_ =? value (CrosshairSettingsUI.fov_slider self)); repeat split.
Qed.

(** * Further properties *)

(** ** Rendering after a change of configuration *)

Lemma paintEvent_default_lines (self : CrosshairOverlay.t) :
  CrosshairOverlay.crosshair_visible self = true ->
  CrosshairOverlay.crosshair_image self = None ->
  CrosshairOverlay.paintEvent self
  = crosshair_lines (CrosshairOverlay.width self / 2) (CrosshairOverlay.height self / 2)
      (CrosshairOverlay.size self) (CrosshairOverlay.thickness self)
      (CrosshairOverlay.color self).
Proof.
  intros Hv Hi. unfold CrosshairOverlay.paintEvent. now rewrite Hv, Hi.
Qed.

(** X1.  A reset followed by a repaint, on a visible overlay that holds the
    constructor's defaults: whatever image, size, thickness and colour were
    set before, the repaint draws the default crosshair, two opaque red lines
    of half-length 15 and width 2 around the midpoint, and no image. *)
Theorem reset_then_paint_draws_default (self : CrosshairOverlay.t) :
  init_defaults self ->
  CrosshairOverlay.crosshair_visible self = true ->
  CrosshairOverlay.paintEvent (CrosshairOverlay.reset_to_default self)
  = crosshair_lines (CrosshairOverlay.width self / 2) (CrosshairOverlay.height self / 2)
      15 2 (QColor_rgba 255 0 0 255).
Proof.
  intros (Hs & Ht & Hc) Hv.
  rewrite paintEvent_default_lines by (try exact Hv; reflexivity).
  cbn. now rewrite Hs, Ht, Hc.
Qed.

Lemma reset_then_paint_draws_default_witness :
  let decode : string -> option Bitmap := fun _ => Some sample_bitmap in
  let self :=
    CrosshairOverlay.invoke_all decode
      [CrosshairOverlay.m_toggle_crosshair true; CrosshairOverlay.m_set_size 40;
       CrosshairOverlay.m_load_custom_crosshair "crosshair.png"]
      sample_overlay in
  CrosshairOverlay.paintEvent self
  = [op_drawPixmap (mkQRect 958 538 960 540) (QPixmap_of sample_bitmap)] /\
  CrosshairOverlay.paintEvent (CrosshairOverlay.reset_to_default self)
  = crosshair_lines 960 540 15 2 (QColor_rgba 255 0 0 255).
Proof.
  intros decode self. split; [reflexivity |].
  exact (reset_then_paint_draws_default self
           (conj eq_refl (conj eq_refl eq_refl)) eq_refl).
Defined.



(** X3.  While an image is bound, no setter changes what a repaint draws:
    after [set_size], [set_thickness] or [set_color], with any argument, the
    repaint is the one before the call. *)
Theorem image_hides_setters (self : CrosshairOverlay.t) (img : QPixmap)
    (n : Z) (c : QColor) :
  CrosshairOverlay.crosshair_image self = Some img ->
  CrosshairOverlay.paintEvent (CrosshairOverlay.set_size n self)
  = CrosshairOverlay.paintEvent self /\
  CrosshairOverlay.paintEvent (CrosshairOverlay.set_thickness n self)
  = CrosshairOverlay.paintEvent self /\
  CrosshairOverlay.paintEvent (CrosshairOverlay.set_color c self)
  = CrosshairOverlay.paintEvent self.
Proof.
  intros Hi.
  destruct (CrosshairOverlay.crosshair_visible self) eqn:Hv.
  - rewrite (paintEvent_image self img Hv Hi).
    repeat split; now rewrite (paintEvent_image _ img) by assumption.
  - rewrite (paintEvent_hidden self Hv).
    repeat split; now apply paintEvent_hidden.
Qed.

Lemma image_hides_setters_witness :
  let self :=
    CrosshairOverlay.toggle_crosshair true
      (CrosshairOverlay.assign_crosshair_image (Some (QPixmap_of sample_bitmap))
         sample_overlay) in
  CrosshairOverlay.paintEvent (CrosshairOverlay.set_size 40 self)
  = CrosshairOverlay.paintEvent self.
Proof.
  intros self.
  exact (proj1 (image_hides_setters self (QPixmap_of sample_bitmap) 40 QColor_invalid
                  eq_refl)).
Defined.

(** ** The overlay's window in user32 *)

Lemma main_user32 (dw dh winId : Z) (os : User32) :
  snd (main dw dh winId os) = make_window_click_through winId os.
Proof. reflexivity. Qed.

(** X4.  When [main] returns, the overlay's own window, whose extended style
    was the long [s], is click-through: its style has [WS_EX_LAYERED] (bit
    19) and [WS_EX_TRANSPARENT] (bit 5), keeps every bit [s] had, and no long
    of any other window, nor any other long of this one, has changed. *)
Theorem main_makes_overlay_click_through (dw dh winId : Z) (os : User32) (s : Z) :
  os !! (winId, GWL_EXSTYLE) = Some s ->
  is_long s ->
  let os' := snd (main dw dh winId os) in
  exists s' : Z,
    os' !! (winId, GWL_EXSTYLE) = Some s' /\
    Z.land s' WS_EX_LAYERED = WS_EX_LAYERED /\
    Z.land s' WS_EX_TRANSPARENT = WS_EX_TRANSPARENT /\
    Z.land s s' = s /\
    (forall k : Z * Z, k <> (winId, GWL_EXSTYLE) -> os' !! k = os !! k).
Proof.
  intros Hs Hlong os'. unfold os'. rewrite main_user32.
  rewrite (make_window_click_through_lookup os winId s Hs).
  rewrite c_int_id by now apply click_through_style_long.
  exists (Z.lor (Z.lor s WS_EX_LAYERED) WS_EX_TRANSPARENT).
  split; [apply lookup_insert_eq |].
  assert (Hbits : forall f : Z,
             (forall i, 0 <= i -> Z.testbit f i = true ->
                        Z.testbit (Z.lor (Z.lor s WS_EX_LAYERED) WS_EX_TRANSPARENT) i = true) ->
             Z.land (Z.lor (Z.lor s WS_EX_LAYERED) WS_EX_TRANSPARENT) f = f).
  { intros f Hf. apply Z.bits_inj'. intros i Hi. rewrite Z.land_spec.
    destruct (Z.testbit f i) eqn:E; [| apply andb_false_r].
    now rewrite (Hf i Hi E). }
  split.
  { apply Hbits. intros i Hi. rewrite !Z.lor_spec. intros ->.
    now rewrite orb_true_r. }
  split.
  { apply Hbits. intros i Hi. rewrite !Z.lor_spec. intros ->.
    now rewrite orb_true_r. }
  split.
  { rewrite Z.land_comm. apply Hbits. intros i Hi. rewrite !Z.lor_spec.
    now intros ->. }
  intros k Hk. now apply lookup_insert_ne.
Qed.

Lemma main_makes_overlay_click_through_witness :
  let os : User32 := {[ (7, GWL_EXSTYLE) := 0x100; (9, GWL_EXSTYLE) := 0x8 ]} in
  exists s' : Z,
    snd (main 1920 1080 7 os) !! (7, GWL_EXSTYLE) = Some s' /\
    Z.land s' WS_EX_TRANSPARENT = WS_EX_TRANSPARENT /\
    snd (main 1920 1080 7 os) !! (9, GWL_EXSTYLE) = os !! (9, GWL_EXSTYLE).
Proof.
  intros os.
  assert (Hs : os !! (7, GWL_EXSTYLE) = Some 0x100) by reflexivity.
  assert (Hl : is_long 0x100) by (unfold is_long; lia).
  destruct (main_makes_overlay_click_through 1920 1080 7 os 0x100 Hs Hl)
    as (s' & Hs' & _ & Ht & _ & Hother).
  exists s'. split; [exact Hs' |]. split; [exact Ht |].
  apply Hother. unfold GWL_EXSTYLE. intros E. discriminate E.
Defined.

(** X5.  On a window that is click-through already (both flags set in its
    32-bit style) the call changes nothing in user32. *)
Theorem click_through_window_unchanged (os : User32) (hwnd s : Z) :
  os !! (hwnd, GWL_EXSTYLE) = Some s ->
  is_long s ->
  Z.land s WS_EX_LAYERED = WS_EX_LAYERED ->
  Z.land s WS_EX_TRANSPARENT = WS_EX_TRANSPARENT ->
  make_window_click_through hwnd os = os.
Proof.
  intros Hs Hlong HL HT.
  assert (H19 : Z.testbit s 19 = true).
  { assert (E : Z.testbit (Z.land s WS_EX_LAYERED) 19 = true) by now rewrite HL.
    rewrite Z.land_spec in E. now apply andb_prop in E. }
  assert (H5 : Z.testbit s 5 = true).
  { assert (E : Z.testbit (Z.land s WS_EX_TRANSPARENT) 5 = true) by now rewrite HT.
    rewrite Z.land_spec in E. now apply andb_prop in E. }
  rewrite (make_window_click_through_lookup os hwnd s Hs).
  rewrite (click_through_style_fixed s H19 H5), (c_int_id s Hlong).
  now apply insert_id.
Qed.

Lemma click_through_window_unchanged_witness :
  let os : User32 := {[ (7, GWL_EXSTYLE) := 0x80028 ]} in
  make_window_click_through 7 os = os.
Proof.
  intros os.
  apply (click_through_window_unchanged os 7 0x80028).
  - reflexivity.
  - unfold is_long; lia.
  - reflexivity.
  - reflexivity.
Defined.

(** ** Sliders *)

Lemma qBound_within (lo v hi : Z) : lo <= hi -> lo <= qBound lo v hi <= hi.
Proof. unfold qBound. lia. Qed.

Section SliderEvents.

Variable decode : string -> option Bitmap.

(** A slider event: nothing at all happens when the handle is moved to where
    it stands; otherwise the slider takes the bounded position and the
    handler runs on it. *)
Lemma dispatch_size_slider (v : Z) (p : CrosshairSettingsUI.t) :
  let sl := CrosshairSettingsUI.size_slider p in
  let v' := qBound (minimum sl) v (maximum sl) in
  CrosshairSettingsUI.dispatch decode (CrosshairSettingsUI.size_slider_moved v) p
  = if v' =? value sl then p
    else CrosshairSettingsUI.update_size v'
           (CrosshairSettingsUI.assign_size_slider
              (mkQSlider (minimum sl) (maximum sl) v') p).
Proof.
  cbn. unfold setValue.
  destruct (_ =? value (CrosshairSettingsUI.size_slider p)); [| reflexivity].
  now destruct p.
Qed.

Lemma dispatch_thickness_slider (v : Z) (p : CrosshairSettingsUI.t) :
  let sl := CrosshairSettingsUI.thickness_slider p in
  let v' := qBound (minimum sl) v (maximum sl) in
  CrosshairSettingsUI.dispatch decode (CrosshairSettingsUI.thickness_slider_moved v) p
  = if v' =? value sl then p
    else CrosshairSettingsUI.update_thickness v'
           (CrosshairSettingsUI.assign_thickness_slider
              (mkQSlider (minimum sl) (maximum sl) v') p).
Proof.
  cbn. unfold setValue.
  destruct (_ =? value (CrosshairSettingsUI.thickness_slider p)); [| reflexivity].
  now destruct p.
Qed.

Lemma dispatch_fov_slider (v : Z) (p : CrosshairSettingsUI.t) :
  let sl := CrosshairSettingsUI.fov_slider p in
  let v' := qBound (minimum sl) v (maximum sl) in
  CrosshairSettingsUI.dispatch decode (CrosshairSettingsUI.fov_slider_moved v) p
  = if v' =? value sl then p
    else CrosshairSettingsUI.update_fov v'
           (CrosshairSettingsUI.assign_fov_slider
              (mkQSlider (minimum sl) (maximum sl) v') p).
Proof.
  cbn. unfold setValue.
  destruct (_ =? value (CrosshairSettingsUI.fov_slider p)); [| reflexivity].
  now destruct p.
Qed.

Lemma run_app (es1 es2 : list CrosshairSettingsUI.Event) (p : CrosshairSettingsUI.t) :
  CrosshairSettingsUI.run decode (es1 ++ es2) p
  = CrosshairSettingsUI.run decode es2 (CrosshairSettingsUI.run decode es1 p).
Proof. apply fold_left_app. Qed.

(** An invariant of every event is an invariant of every run. *)
Lemma run_invariant (P : CrosshairSettingsUI.t -> Prop)
    (ok : CrosshairSettingsUI.Event -> bool) :
  (forall e p, ok e = true -> P p -> P (CrosshairSettingsUI.dispatch decode e p)) ->
  forall es p, forallb ok es = true -> P p -> P (CrosshairSettingsUI.run decode es p).
Proof.
  intros Hstep es. induction es as [| e es IH]; intros p Hes Hp; [exact Hp |].
  cbn in Hes. apply andb_prop in Hes as [He Hes].
  apply (IH _ Hes). now apply Hstep.
Qed.

Lemma dispatch_in_ranges (e : CrosshairSettingsUI.Event) (p : CrosshairSettingsUI.t) :
  in_ranges p -> in_ranges (CrosshairSettingsUI.dispatch decode e p).
Proof.
  unfold in_ranges, slider_within.
  intros (Hsz & Hth & (Hs1 & Hs2 & Hs3) & (Ht1 & Ht2 & Ht3) & (Hf1 & Hf2 & Hf3)
          & Hlabel & Hdef).
  destruct e.
  - rewrite dispatch_size_slider. cbv zeta. rewrite Hs1, Hs2.
    pose proof (qBound_within 5 position 100 ltac:(lia)).
    destruct (_ =? _); cbn; intuition.
  - rewrite dispatch_thickness_slider. cbv zeta. rewrite Ht1, Ht2.
    pose proof (qBound_within 1 position 10 ltac:(lia)).
    destruct (_ =? _); cbn; intuition.
  - rewrite dispatch_fov_slider. cbv zeta. rewrite Hf1, Hf2.
    pose proof (qBound_within 60 position 120 ltac:(lia)).
    destruct (_ =? _); cbn; intuition.
  - cbn. unfold CrosshairSettingsUI.choose_color.
    destruct (isValid picked); cbn; intuition.
  - cbn. unfold CrosshairSettingsUI.upload_custom_crosshair.
    destruct (truthy_str file_path); cbn; intuition.
  - destruct Hdef as (Hd1 & Hd2 & Hd3). cbn. rewrite Hd1, Hd2.
    repeat split; try assumption; lia.
  - cbn. unfold CrosshairSettingsUI.toggle_crosshair. cbn.
    destruct (negb _); cbn; intuition.
  - cbn. unfold CrosshairOverlay.update_overlay.
    destruct (CrosshairOverlay.crosshair_visible _); cbn; intuition.
Qed.

Lemma main_in_ranges (dw dh winId : Z) (os : User32) :
  in_ranges (fst (main dw dh winId os)).
Proof.
  unfold in_ranges, slider_within.
  repeat split; try reflexivity; vm_compute; discriminate.
Qed.

End SliderEvents.

(** ** The panel and the overlay over a run of events *)

Section PanelRuns.

Variable decode : string -> option Bitmap.

Lemma forallb_all (es : list CrosshairSettingsUI.Event) :
  forallb (fun _ => true) es = true.
Proof. induction es; [reflexivity | assumption]. Qed.

Lemma run_in_ranges (dw dh winId : Z) (os : User32)
    (es : list CrosshairSettingsUI.Event) :
  in_ranges (CrosshairSettingsUI.run decode es (fst (main dw dh winId os))).
Proof.
  apply (run_invariant decode in_ranges (fun _ => true)).
  - intros e p _. apply dispatch_in_ranges.
  - apply forallb_all.
  - apply main_in_ranges.
Qed.

Lemma dispatch_in_sync (e : CrosshairSettingsUI.Event) (p : CrosshairSettingsUI.t) :
  negb (is_remove_button e) = true ->
  in_sync p -> in_sync (CrosshairSettingsUI.dispatch decode e p).
Proof.
  unfold in_sync. intros He (H1 & H2 & H3 & H4).
  destruct e; try discriminate He.
  - rewrite dispatch_size_slider. cbv zeta.
    destruct (_ =? _); cbn; intuition.
  - rewrite dispatch_thickness_slider. cbv zeta.
    destruct (_ =? _); cbn; intuition.
  - rewrite dispatch_fov_slider. cbv zeta.
    destruct (_ =? _); cbn; intuition.
  - cbn. unfold CrosshairSettingsUI.choose_color.
    destruct (isValid picked); cbn; intuition.
  - cbn. unfold CrosshairSettingsUI.upload_custom_crosshair.
    destruct (truthy_str file_path); cbn; intuition.
  - cbn. unfold CrosshairSettingsUI.toggle_crosshair. cbn.
    destruct (isChecked (CrosshairSettingsUI.crosshair_button p)); cbn; intuition.
  - cbn. unfold CrosshairOverlay.update_overlay.
    destruct (CrosshairOverlay.crosshair_visible _); cbn; intuition.
Qed.

Lemma dispatch_keeps_geometry (e : CrosshairSettingsUI.Event)
    (p : CrosshairSettingsUI.t) :
  CrosshairOverlay.geometry
    (CrosshairSettingsUI.crosshair_overlay (CrosshairSettingsUI.dispatch decode e p))
  = CrosshairOverlay.geometry (CrosshairSettingsUI.crosshair_overlay p).
Proof.
  destruct e.
  - rewrite dispatch_size_slider. cbv zeta. now destruct (_ =? _).
  - rewrite dispatch_thickness_slider. cbv zeta. now destruct (_ =? _).
  - rewrite dispatch_fov_slider. cbv zeta. now destruct (_ =? _).
  - cbn. unfold CrosshairSettingsUI.choose_color. now destruct (isValid picked).
  - cbn. unfold CrosshairSettingsUI.upload_custom_crosshair.
    now destruct (truthy_str file_path).
  - reflexivity.
  - cbn. unfold CrosshairSettingsUI.toggle_crosshair. cbn. now destruct (negb _).
  - cbn. unfold CrosshairOverlay.update_overlay.
    now destruct (CrosshairOverlay.crosshair_visible _).
Qed.

Lemma dispatch_button (e : CrosshairSettingsUI.Event) (p : CrosshairSettingsUI.t) :
  button_mirrors p ->
  button_mirrors (CrosshairSettingsUI.dispatch decode e p) /\
  isChecked (CrosshairSettingsUI.crosshair_button
               (CrosshairSettingsUI.dispatch decode e p))
  = xorb (CrosshairSettingsUI.is_crosshair_button e)
      (isChecked (CrosshairSettingsUI.crosshair_button p)).
Proof.
  unfold button_mirrors. intros (H1 & H2).
  destruct e.
  - rewrite dispatch_size_slider. cbv zeta. destruct (_ =? _); cbn; intuition.
  - rewrite dispatch_thickness_slider. cbv zeta. destruct (_ =? _); cbn; intuition.
  - rewrite dispatch_fov_slider. cbv zeta. destruct (_ =? _); cbn; intuition.
  - cbn. unfold CrosshairSettingsUI.choose_color.
    destruct (isValid picked); cbn; intuition.
  - cbn. unfold CrosshairSettingsUI.upload_custom_crosshair.
    destruct (truthy_str file_path); cbn; intuition.
  - cbn. intuition.
  - cbn. unfold CrosshairSettingsUI.toggle_crosshair. cbn.
    destruct (isChecked (CrosshairSettingsUI.crosshair_button p)); cbn; intuition.
  - cbn. rewrite update_overlay_visible. intuition.
Qed.

Lemma run_button (es : list CrosshairSettingsUI.Event) (p : CrosshairSettingsUI.t) :
  button_mirrors p ->
  button_mirrors (CrosshairSettingsUI.run decode es p) /\
  isChecked (CrosshairSettingsUI.crosshair_button (CrosshairSettingsUI.run decode es p))
  = xorb (Nat.odd (clicks es)) (isChecked (CrosshairSettingsUI.crosshair_button p)).
Proof.
  revert p. induction es as [| e es IH]; intros p Hp; [split; [exact Hp | reflexivity] |].
  destruct (dispatch_button e p Hp) as [Hm Hc].
  destruct (IH _ Hm) as [IHm IHc].
  change (CrosshairSettingsUI.run decode (e :: es) p)
    with (CrosshairSettingsUI.run decode es (CrosshairSettingsUI.dispatch decode e p)).
  split; [exact IHm |].
  rewrite IHc, Hc. unfold clicks. cbn [List.filter].
  destruct (CrosshairSettingsUI.is_crosshair_button e); cbn [length xorb].
  - rewrite Nat.odd_succ, <- Nat.negb_odd.
    destruct (Nat.odd _);
      destruct (isChecked (CrosshairSettingsUI.crosshair_button p)); reflexivity.
  - now destruct (isChecked (CrosshairSettingsUI.crosshair_button p)).
Qed.

Lemma run_keeps_shown (es : list CrosshairSettingsUI.Event)
    (p : CrosshairSettingsUI.t) :
  forallb (fun e => negb (CrosshairSettingsUI.is_timer e)) es = true ->
  CrosshairOverlay.shown
    (CrosshairSettingsUI.crosshair_overlay (CrosshairSettingsUI.run decode es p))
  = CrosshairOverlay.shown (CrosshairSettingsUI.crosshair_overlay p).
Proof.
  revert p. induction es as [| e es IH]; intros p Hes; [reflexivity |].
  cbn in Hes. apply andb_prop in Hes as [He Hes]. apply negb_true_iff in He.
  change (CrosshairSettingsUI.run decode (e :: es) p)
    with (CrosshairSettingsUI.run decode es (CrosshairSettingsUI.dispatch decode e p)).
  rewrite (IH _ Hes). now apply dispatch_keeps_shown.
Qed.

Lemma dispatch_show_hide_length (e : CrosshairSettingsUI.Event)
    (p : CrosshairSettingsUI.t) :
  length (CrosshairOverlay.show_hide_calls
            (CrosshairSettingsUI.crosshair_overlay
               (CrosshairSettingsUI.dispatch decode e p)))
  = (length (CrosshairOverlay.show_hide_calls (CrosshairSettingsUI.crosshair_overlay p))
     + if CrosshairSettingsUI.is_timer e then 1 else 0)%nat.
Proof.
  destruct (CrosshairSettingsUI.is_timer e) eqn:He.
  - destruct e; try discriminate He. cbn.
    unfold CrosshairOverlay.show_hide_calls.
    rewrite update_overlay_calls, List.filter_app, length_app.
    now destruct (CrosshairOverlay.crosshair_visible _).
  - rewrite (dispatch_keeps_show_hide decode e p He). lia.
Qed.

End PanelRuns.


Lemma main_button_mirrors (dw dh winId : Z) (os : User32) :
  button_mirrors (fst (main dw dh winId os)).
Proof. split; reflexivity. Qed.

Lemma main_in_sync (dw dh winId : Z) (os : User32) :
  in_sync (fst (main dw dh winId os)).
Proof. repeat split. Qed.

Lemma main_geometry (dw dh winId : Z) (os : User32) :
  CrosshairOverlay.geometry (CrosshairSettingsUI.crosshair_overlay (fst (main dw dh winId os)))
  = QRect_xywh 0 0 dw dh.
Proof. reflexivity. Qed.

(** X6.  Whatever the user does with the panel, in any order and any number
    of times, the overlay's size stays within 5..100 and its thickness within
    1..10 (the ranges [init_ui] gives the sliders; a reset puts back 15 and
    2, which lie inside), each slider keeps its range and a value inside it,
    and the field-of-view label shows the value of its slider, which stays
    within 60..120. *)
Theorem panel_keeps_ranges (decode : string -> option Bitmap)
    (dw dh winId : Z) (os : User32) (es : list CrosshairSettingsUI.Event) :
  let p := CrosshairSettingsUI.run decode es (fst (main dw dh winId os)) in
  let o := CrosshairSettingsUI.crosshair_overlay p in
  5 <= CrosshairOverlay.size o <= 100 /\
  1 <= CrosshairOverlay.thickness o <= 10 /\
  slider_within 5 100 (CrosshairSettingsUI.size_slider p) /\
  slider_within 1 10 (CrosshairSettingsUI.thickness_slider p) /\
  slider_within 60 120 (CrosshairSettingsUI.fov_slider p) /\
  CrosshairSettingsUI.fov_label p
  = "Field of View (FOV): " +:+ str (value (CrosshairSettingsUI.fov_slider p)).
Proof.
  intros p o.
  destruct (run_in_ranges decode dw dh winId os es) as (H1 & H2 & H3 & H4 & H5 & H6 & _).
  repeat split; first [apply H1 | apply H2 | apply H3 | apply H4 | apply H5 | apply H6].
Qed.

(** X7.  As long as "Remove Custom Crosshair" is not clicked, the size and
    thickness controls show what the overlay holds: each label reads the
    overlay's value and each slider stands on it. *)
Theorem panel_in_sync_until_remove (decode : string -> option Bitmap)
    (dw dh winId : Z) (os : User32) (es : list CrosshairSettingsUI.Event) :
  forallb (fun e => negb (is_remove_button e)) es = true ->
  in_sync (CrosshairSettingsUI.run decode es (fst (main dw dh winId os))).
Proof.
  intros Hes.
  apply (run_invariant decode in_sync (fun e => negb (is_remove_button e))).
  - apply dispatch_in_sync.
  - exact Hes.
  - apply main_in_sync.
Qed.

Lemma panel_in_sync_until_remove_witness :
  let decode : string -> option Bitmap := fun _ => None in
  let p :=
    CrosshairSettingsUI.run decode
      [CrosshairSettingsUI.size_slider_moved 400;
       CrosshairSettingsUI.thickness_slider_moved 7;
       CrosshairSettingsUI.crosshair_button_clicked]
      (fst (main 1920 1080 7 ∅)) in
  CrosshairSettingsUI.size_label p = "Crosshair Size: 100" /\
  CrosshairOverlay.size (CrosshairSettingsUI.crosshair_overlay p) = 100 /\
  in_sync p.
Proof.
  intros decode p.
  split; [reflexivity |]. split; [reflexivity |].
  exact (panel_in_sync_until_remove decode 1920 1080 7 ∅
           [CrosshairSettingsUI.size_slider_moved 400;
            CrosshairSettingsUI.thickness_slider_moved 7;
            CrosshairSettingsUI.crosshair_button_clicked] eq_refl).
Defined.

(** X8.  "Remove Custom Crosshair" does more and less than its name says: it
    resets the overlay's size, thickness and colour along with the image, and
    it refreshes nothing in the panel, whose labels and sliders keep showing
    the values from before.  Moving a slider to where it still stands then
    changes nothing, so the overlay stays on the default until the slider is
    moved somewhere else. *)
Theorem remove_resets_overlay_not_panel (decode : string -> option Bitmap)
    (p : CrosshairSettingsUI.t) :
  init_defaults (CrosshairSettingsUI.crosshair_overlay p) ->
  let p' := CrosshairSettingsUI.remove_custom_crosshair p in
  let o' := CrosshairSettingsUI.crosshair_overlay p' in
  (CrosshairOverlay.size o' = 15 /\
   CrosshairOverlay.thickness o' = 2 /\
   CrosshairOverlay.color o' = QColor_rgba 255 0 0 255 /\
   CrosshairOverlay.crosshair_image o' = None /\
   CrosshairOverlay.crosshair_visible o'
   = CrosshairOverlay.crosshair_visible (CrosshairSettingsUI.crosshair_overlay p)) /\
  (CrosshairSettingsUI.size_label p' = CrosshairSettingsUI.size_label p /\
   CrosshairSettingsUI.size_slider p' = CrosshairSettingsUI.size_slider p /\
   CrosshairSettingsUI.thickness_label p' = CrosshairSettingsUI.thickness_label p /\
   CrosshairSettingsUI.thickness_slider p' = CrosshairSettingsUI.thickness_slider p /\
   CrosshairSettingsUI.fov_label p' = CrosshairSettingsUI.fov_label p /\
   CrosshairSettingsUI.fov_slider p' = CrosshairSettingsUI.fov_slider p /\
   CrosshairSettingsUI.crosshair_button p' = CrosshairSettingsUI.crosshair_button p) /\
  (forall v : Z,
      qBound (minimum (CrosshairSettingsUI.size_slider p)) v
        (maximum (CrosshairSettingsUI.size_slider p))
      = value (CrosshairSettingsUI.size_slider p) ->
      CrosshairSettingsUI.dispatch decode (CrosshairSettingsUI.size_slider_moved v) p' = p') /\
  (forall v : Z,
      qBound (minimum (CrosshairSettingsUI.thickness_slider p)) v
        (maximum (CrosshairSettingsUI.thickness_slider p))
      = value (CrosshairSettingsUI.thickness_slider p) ->
      CrosshairSettingsUI.dispatch decode (CrosshairSettingsUI.thickness_slider_moved v) p' = p').
Proof.
  intros (Hs & Ht & Hc) p' o'.
  split; [unfold o', p'; cbn; rewrite Hs, Ht, Hc; repeat split |].
  split; [repeat split |].
  split; intros v Hv.
  - rewrite dispatch_size_slider. cbv zeta.
    change (CrosshairSettingsUI.size_slider p') with (CrosshairSettingsUI.size_slider p).
    now rewrite Hv, Z.eqb_refl.
  - rewrite dispatch_thickness_slider. cbv zeta.
    change (CrosshairSettingsUI.thickness_slider p')
      with (CrosshairSettingsUI.thickness_slider p).
    now rewrite Hv, Z.eqb_refl.
Qed.

Lemma remove_resets_overlay_not_panel_witness :
  let decode : string -> option Bitmap := fun _ => None in
  let p :=
    CrosshairSettingsUI.dispatch decode (CrosshairSettingsUI.size_slider_moved 40)
      (fst (main 1920 1080 7 ∅)) in
  let p' := CrosshairSettingsUI.remove_custom_crosshair p in
  CrosshairOverlay.size (CrosshairSettingsUI.crosshair_overlay p) = 40 /\
  CrosshairOverlay.size (CrosshairSettingsUI.crosshair_overlay p') = 15 /\
  CrosshairSettingsUI.size_label p' = "Crosshair Size: 40" /\
  CrosshairSettingsUI.dispatch decode (CrosshairSettingsUI.size_slider_moved 40) p' = p'.
Proof.
  intros decode p p'.
  destruct (remove_resets_overlay_not_panel decode p (conj eq_refl (conj eq_refl eq_refl)))
    as ((Hsize & _) & (Hlabel & _) & Hmove & _).
  split; [reflexivity |]. split; [exact Hsize |].
  split; [exact (eq_trans Hlabel eq_refl) |].
  exact (Hmove 40 eq_refl).
Defined.

(** X9.  The enable/disable button and the overlay's flag never part: after
    any events, the flag is true exactly when the button is checked, which is
    exactly when it has been clicked an odd number of times, and the button
    reads "Disable Crosshair" then and "Enable Crosshair" otherwise. *)
Theorem button_mirrors_visibility (decode : string -> option Bitmap)
    (dw dh winId : Z) (os : User32) (es : list CrosshairSettingsUI.Event) :
  let p := CrosshairSettingsUI.run decode es (fst (main dw dh winId os)) in
  let b := CrosshairSettingsUI.crosshair_button p in
  CrosshairOverlay.crosshair_visible (CrosshairSettingsUI.crosshair_overlay p)
  = Nat.odd (clicks es) /\
  isChecked b = Nat.odd (clicks es) /\
  text b = if Nat.odd (clicks es) then "Disable Crosshair" else "Enable Crosshair".
Proof.
  intros p b.
  destruct (run_button decode es _ (main_button_mirrors dw dh winId os))
    as ((Hv & Ht) & Hc).
  fold p in Hv, Ht, Hc. fold b in Hv, Ht, Hc.
  assert (E : isChecked b = Nat.odd (clicks es)).
  { rewrite Hc. cbn. apply xorb_false_r. }
  rewrite Hv, Ht, E. repeat split.
Qed.

(** X10.  Every timer tick calls [show()] or [hide()], also when the window
    is already in that state: over any run of events the overlay receives
    exactly one such call per tick and none otherwise. *)
Theorem every_tick_calls_show_or_hide (decode : string -> option Bitmap)
    (es : list CrosshairSettingsUI.Event) (p : CrosshairSettingsUI.t) :
  length (CrosshairOverlay.show_hide_calls
            (CrosshairSettingsUI.crosshair_overlay (CrosshairSettingsUI.run decode es p)))
  = (length (CrosshairOverlay.show_hide_calls (CrosshairSettingsUI.crosshair_overlay p))
     + ticks es)%nat.
Proof.
  revert p. induction es as [| e es IH]; intros p; [cbn; lia |].
  change (CrosshairSettingsUI.run decode (e :: es) p)
    with (CrosshairSettingsUI.run decode es (CrosshairSettingsUI.dispatch decode e p)).
  rewrite IH, dispatch_show_hide_length. unfold ticks. cbn [List.filter].
  destruct (CrosshairSettingsUI.is_timer e); cbn [length]; lia.
Qed.

(** X11.  What the window system shows is the flag as the last timer tick
    found it: whatever happened before that tick, and whatever has happened
    since (clicks on the enable/disable button included), the window is shown
    exactly when the flag was true at the tick. *)
Theorem shown_is_flag_at_last_tick (decode : string -> option Bitmap)
    (before after : list CrosshairSettingsUI.Event) (p : CrosshairSettingsUI.t) :
  forallb (fun e => negb (CrosshairSettingsUI.is_timer e)) after = true ->
  CrosshairOverlay.shown
    (CrosshairSettingsUI.crosshair_overlay
       (CrosshairSettingsUI.run decode
          (before ++ CrosshairSettingsUI.timer_timeout :: after) p))
  = CrosshairOverlay.crosshair_visible
      (CrosshairSettingsUI.crosshair_overlay (CrosshairSettingsUI.run decode before p)).
Proof.
  intros Hafter. rewrite run_app.
  change (CrosshairSettingsUI.run decode (CrosshairSettingsUI.timer_timeout :: after) ?q)
    with (CrosshairSettingsUI.run decode after
            (CrosshairSettingsUI.dispatch decode CrosshairSettingsUI.timer_timeout q)).
  rewrite run_keeps_shown by exact Hafter.
  cbn. apply update_overlay_shown.
Qed.

Lemma shown_is_flag_at_last_tick_witness :
  let decode : string -> option Bitmap := fun _ => None in
  let p := fst (main 1920 1080 7 ∅) in
  CrosshairOverlay.shown
    (CrosshairSettingsUI.crosshair_overlay
       (CrosshairSettingsUI.run decode
          ([CrosshairSettingsUI.crosshair_button_clicked]
             ++ CrosshairSettingsUI.timer_timeout
             :: [CrosshairSettingsUI.crosshair_button_clicked]) p))
  = true.
Proof.
  intros decode p.
  exact (shown_is_flag_at_last_tick decode
           [CrosshairSettingsUI.crosshair_button_clicked]
           [CrosshairSettingsUI.crosshair_button_clicked] p eq_refl).
Defined.

Lemma run_geometry (decode : string -> option Bitmap) (dw dh winId : Z) (os : User32)
    (es : list CrosshairSettingsUI.Event) :
  CrosshairOverlay.geometry
    (CrosshairSettingsUI.crosshair_overlay
       (CrosshairSettingsUI.run decode es (fst (main dw dh winId os))))
  = QRect_xywh 0 0 dw dh.
Proof.
  apply (run_invariant decode
           (fun p => CrosshairOverlay.geometry (CrosshairSettingsUI.crosshair_overlay p)
                     = QRect_xywh 0 0 dw dh)
           (fun _ => true)).
  - intros e p _ H. now rewrite dispatch_keeps_geometry.
  - apply forallb_all.
  - apply main_geometry.
Qed.

(** X12.  On a desktop more than 200 pixels wide and high, whatever the user
    does with the panel, the default crosshair lies on the surface: with no
    image bound, every primitive a repaint draws is a line whose end points
    are pixels of the surface.  (The surface keeps the size of the desktop,
    and the sliders keep the half-length at 100 or less.) *)
Theorem lines_inside_surface (decode : string -> option Bitmap)
    (dw dh winId : Z) (os : User32) (es : list CrosshairSettingsUI.Event) :
  200 < dw -> 200 < dh ->
  let o := CrosshairSettingsUI.crosshair_overlay
             (CrosshairSettingsUI.run decode es (fst (main dw dh winId os))) in
  CrosshairOverlay.crosshair_image o = None ->
  CrosshairOverlay.width o = dw /\
  CrosshairOverlay.height o = dh /\
  forallb (line_inside dw dh) (CrosshairOverlay.paintEvent o) = true.
Proof.
  intros Hdw Hdh o Hi.
  destruct (run_in_ranges decode dw dh winId os es) as (Hsize & _).
  fold o in Hsize.
  assert (Hw : CrosshairOverlay.width o = dw).
  { unfold CrosshairOverlay.width, o. rewrite run_geometry.
    unfold rect_width, QRect_xywh. cbn. lia. }
  assert (Hh : CrosshairOverlay.height o = dh).
  { unfold CrosshairOverlay.height, o. rewrite run_geometry.
    unfold rect_height, QRect_xywh. cbn. lia. }
  split; [exact Hw |]. split; [exact Hh |].
  destruct (CrosshairOverlay.crosshair_visible o) eqn:Hv.
  - rewrite (paintEvent_default_lines o Hv Hi), Hw, Hh.
    unfold crosshair_lines. cbn [forallb line_inside].
    rewrite !andb_true_iff, !Z.leb_le, !Z.ltb_lt.
    pose proof (Z.div_mod dw 2 ltac:(lia)) as Ew.
    pose proof (Z.mod_pos_bound dw 2 ltac:(lia)) as Bw.
    pose proof (Z.div_mod dh 2 ltac:(lia)) as Eh.
    pose proof (Z.mod_pos_bound dh 2 ltac:(lia)) as Bh.
    repeat split; lia.
  - now rewrite (paintEvent_hidden o Hv).
Qed.

Lemma lines_inside_surface_witness :
  let decode : string -> option Bitmap := fun _ => None in
  let o :=
    CrosshairSettingsUI.crosshair_overlay
      (CrosshairSettingsUI.run decode
         [CrosshairSettingsUI.size_slider_moved 1000;
          CrosshairSettingsUI.crosshair_button_clicked]
         (fst (main 201 201 7 ∅))) in
  CrosshairOverlay.paintEvent o
  = crosshair_lines 100 100 100 2 (QColor_rgba 255 0 0 255) /\
  forallb (line_inside 201 201) (CrosshairOverlay.paintEvent o) = true.
Proof.
  intros decode o. split; [reflexivity |].
  assert (H1 : 200 < 201) by lia.
  exact (proj2 (proj2 (lines_inside_surface decode 201 201 7 ∅
                         [CrosshairSettingsUI.size_slider_moved 1000;
                          CrosshairSettingsUI.crosshair_button_clicked]
                         H1 H1 eq_refl))).
Defined.

